(** * Survey analysis scripts: a shallow embedding

    The repository holds three batch scripts over one survey export:
    [analyze_survey.py], [analyze_awareness_impact.py] and
    [analyze_irreplaceability.py].  Each script is embedded below in a module
    of its own, on top of a small model of the pandas operations it calls.

    Conventions of the model:
    - a cell is blank ([NaN]), a text answer ([Str]) or a number ([Num]);
      numbers are exact rationals, so a percentage or a mean is the exact
      quotient that the script's floating-point division approximates;
    - a row is a finite map from field code to cell, a table is its column
      index together with its rows;
    - the scripts run in a state-and-exception monad whose state holds the
      files on disk, the one table object bound to [df], the artifacts written
      and the error lines printed. *)

From stdpp Require Import base option list strings gmap sorting pretty.
From Stdlib Require Import QArith Lqa.

Close Scope Q_scope.

(** ** Cells, rows and tables *)

Inductive cell : Type :=
| NaN
| Str (s : string)
| Num (q : Q).

Definition notna (c : cell) : bool :=
  match c with NaN => false | _ => true end.

(** [series == 'literal'] on one cell. *)
Definition eq_str (c : cell) (lit : string) : bool :=
  match c with Str s => bool_decide (s = lit) | _ => false end.

(** [series <= n] on one cell: a comparison with NaN is False; comparing a
    text cell with a number does not occur in the scripts (they compare
    mapped columns only) and is read as False. *)
Definition le_num (c : cell) (n : Q) : bool :=
  match c with Num q => Qle_bool q n | _ => false end.

Abbreviation Row := (gmap string cell).

Record DataFrame : Type := mkDF {
  columns : list string;
  rows : list Row
}.

(** The cell of row [r] under field code [c]; a short CSV line leaves its
    trailing fields blank. *)
Definition cell_of (r : Row) (c : string) : cell := default NaN (r !! c).

Definition has_column (df : DataFrame) (c : string) : bool :=
  bool_decide (c ∈ columns df).

(** [len(df)] *)
Definition len (df : DataFrame) : nat := length (rows df).

(** [df[mask]] where the mask is computed row by row. *)
Definition select (p : Row → bool) (df : DataFrame) : DataFrame :=
  mkDF (columns df) (List.filter p (rows df)).

(** [df[c] = f(df)] for an element-wise [f]: an existing column is
    overwritten in place, a new one is appended to the column index. *)
Definition setitem (c : string) (f : Row → cell) (df : DataFrame) : DataFrame :=
  mkDF (if has_column df c then columns df else columns df ++ [c])
       (List.map (λ r, <[c := f r]> r) (rows df)).

(** [df[c]] as a list of cells. *)
Definition series (df : DataFrame) (c : string) : list cell :=
  List.map (λ r, cell_of r c) (rows df).

(** ** Files, processes and exceptions *)

(** A CSV file as its lines of raw fields; an empty field is the empty
    string. *)
Abbreviation csv := (list (list string)).

Inductive exn : Type :=
| FileNotFoundError (path : string)
| ParserError
| EmptyDataError
| IndexError
| KeyError (key : string)
| ZeroDivisionError
| SystemExit (code : Z).

Record Proc : Type := mkProc {
  disk : gmap string csv;
  frame : DataFrame;
  written : list string;
  printed : list string
}.

Definition M (A : Type) : Type := Proc → (exn + A) * Proc.

#[global] Instance M_ret : MRet M := λ A a st, (inr a, st).

#[global] Instance M_bind : MBind M := λ A B f m st,
  match m st with
  | (inl e, st') => (inl e, st')
  | (inr a, st') => f a st'
  end.

Definition raise {A : Type} (e : exn) : M A := λ st, (inl e, st).

(** [try: body except FileNotFoundError: handler] *)
Definition try_except_FileNotFound {A : Type} (body : M A) (handler : string → M A) : M A :=
  λ st, match body st with
        | (inl (FileNotFoundError p), st') => handler p st'
        | r => r
        end.

Definition get_frame : M DataFrame := λ st, (inr (frame st), st).

Definition set_frame (df : DataFrame) : M unit := λ st,
  (inr (), mkProc (disk st) df (written st) (printed st)).

(** [plt.savefig(name)], [open(name, 'w')] and [to_csv(name)]: the file is
    created; what is drawn or written in it is not modelled. *)
Definition write_artifact (name : string) : M unit := λ st,
  (inr (), mkProc (disk st) (frame st) (written st ++ [name]) (printed st)).

(** [print(line)], kept for error reports only; the progress output of the
    analyses is not modelled. *)
Definition print (line : string) : M unit := λ st,
  (inr (), mkProc (disk st) (frame st) (written st) (printed st ++ [line])).

Definition open_csv (path : string) : M csv := λ st,
  match disk st !! path with
  | Some f => (inr f, st)
  | None => (inl (FileNotFoundError path), st)
  end.

(** [df[c]] raises KeyError when the table has no column [c]. *)
Definition require_column (df : DataFrame) (c : string) : M unit :=
  if has_column df c then mret () else raise (KeyError c).

Fixpoint require_columns (df : DataFrame) (cs : list string) : M unit :=
  match cs with
  | [] => mret ()
  | c :: cs' => require_column df c ;; require_columns df cs'
  end.

(** How a script ends: exit status, whether the interpreter printed a
    traceback for an exception nobody caught, and the final state. *)
Record Outcome : Type := mkOutcome {
  exit_code : Z;
  traceback : option exn;
  final : Proc
}.

Definition run_script {A : Type} (main : M A) (st : Proc) : Outcome :=
  match main st with
  | (inr _, st') => mkOutcome 0 None st'
  | (inl (SystemExit n), st') => mkOutcome n None st'
  | (inl e, st') => mkOutcome 1 (Some e) st'
  end.

(** ** pandas operations shared by the scripts *)

(** The spellings that [pd.read_csv] reads as NaN by default; the empty
    field is the one the export uses for a skipped question. *)
Definition na_values : list string :=
  [EmptyString; "#N/A"; "#N/A N/A"; "#NA"; "-1.#IND"; "-1.#QNAN"; "-NaN"; "-nan";
   "1.#IND"; "1.#QNAN"; "<NA>"; "N/A"; "NA"; "NULL"; "NaN"; "None"; "n/a"; "nan";
   "null"].

(** Every other field is kept as text: the type inference of [read_csv] is
    left to [to_numeric], which maps a number to itself. *)
Definition to_cell (field : string) : cell :=
  if bool_decide (field ∈ na_values) then NaN else Str field.

(** One line of the file as a row; the field codes of the export are
    distinct. *)
Definition to_row (codes : list string) (line : list string) : Row :=
  list_to_map (zip codes (to_cell <$> line)).

Definition dquote : Ascii.ascii := Ascii.Ascii false true false false false true false false.

(** The text [{"ImportId"] that opens every cell of the export's metadata
    line. *)
Definition import_marker : string :=
  "{" +:+ String dquote ("ImportId" +:+ String dquote EmptyString).

(** [isinstance(x, str) and x.startswith('{"ImportId"')] *)
Definition is_import_marker (c : cell) : bool :=
  match c with Str s => String.prefix import_marker s | _ => false end.

(** [df.iloc[0, 0]] *)
Definition iloc_0_0 (df : DataFrame) : M cell :=
  match rows df, columns df with
  | r :: _, c :: _ => mret (cell_of r c)
  | _, _ => raise IndexError
  end.

(** A line that [read_csv] skips as blank ([skip_blank_lines=True] is the
    default): it holds no field, or one empty field. *)
Definition is_blank_line (line : list string) : bool :=
  match line with
  | [] => true
  | [field] => bool_decide (field = EmptyString)
  | _ => false
  end.

Definition skip_blank_lines (f : csv) : csv :=
  List.filter (λ line, negb (is_blank_line line)) f.

(** The name pandas gives to the header cell at position [i] when the cell is
    empty: [Unnamed: i] under a single header line, [Unnamed: i_level_l] at
    level [l] of a two-line header. *)
Definition unnamed (level : option nat) (i : nat) : string :=
  "Unnamed: " +:+ pretty i +:+
  match level with Some l => "_level_" +:+ pretty l | None => EmptyString end.

Definition header_names (level : option nat) (line : list string) : list string :=
  imap (λ i name, if bool_decide (name = EmptyString) then unnamed level i else name) line.

(** [pd.read_csv(path, header=[0, 1])] followed by [droplevel(1)] on the
    column index: of the lines that are not blank, the first names the
    columns and the second carries the question texts; header lines of
    different lengths are a parse error, and so is a file that stops after
    its first line; a file without any line has no columns to parse.  A data
    line shorter than the header leaves its trailing cells blank.

    The model covers exports whose data lines have at most as many fields as
    the header and whose field codes are distinct.  On a line with more
    fields pandas fails or, when it is the first data line, reads the leading
    fields as row labels, and it renames a repeated code; the model reports a
    parse error for every longer line and keeps a repeated code.  The
    statements that read the loaded table assume neither occurs. *)
Definition read_csv_two_headers (path : string) : M (DataFrame * list string) :=
  f ← open_csv path;
  match skip_blank_lines f with
  | [] => raise EmptyDataError
  | [_] => raise ParserError
  | codes :: texts :: body =>
      if bool_decide (length texts = length codes)
      then
        if forallb (λ l, bool_decide (length l ≤ length codes)) body
        then mret (mkDF (header_names (Some 0) codes)
                     (to_row (header_names (Some 0) codes) <$> body),
                   header_names (Some 1) texts)
        else raise ParserError
      else raise ParserError
  end.

(** [pd.read_csv(path)]: one header line, so that the question texts are
    row 0; blank lines are skipped here too, and the same limits apply to
    longer lines and repeated codes. *)
Definition read_csv (path : string) : M DataFrame :=
  f ← open_csv path;
  match skip_blank_lines f with
  | [] => raise EmptyDataError
  | codes :: body =>
      if forallb (λ l, bool_decide (length l ≤ length codes)) body
      then mret (mkDF (header_names None codes)
                   (to_row (header_names None codes) <$> body))
      else raise ParserError
  end.

(** [series.map(table)] on one cell: a label outside the table, like a blank,
    maps to NaN. *)
Definition map_dict (table : gmap string Z) (c : cell) : cell :=
  match c with
  | Str s => match table !! s with Some n => Num (inject_Z n) | None => NaN end
  | _ => NaN
  end.

(** [a.fillna(b)] on one cell. *)
Definition fillna (a b : cell) : cell := if notna a then a else b.

(** [(num / den) * 100 if den > 0 else 0] *)
Definition pct_or_zero (num den : nat) : Q :=
  if bool_decide (0 < den)%nat
  then ((inject_Z (Z.of_nat num) / inject_Z (Z.of_nat den)) * 100)%Q
  else 0%Q.

(** [(num / den) * 100] on Python integers. *)
Definition pct (num den : nat) : M Q :=
  if bool_decide (den = 0)%nat
  then raise ZeroDivisionError
  else mret ((inject_Z (Z.of_nat num) / inject_Z (Z.of_nat den)) * 100)%Q.

(** [series.value_counts().get(label, 0)]: blanks are never counted. *)
Definition count_label (s : list cell) (label : string) : nat :=
  length (List.filter (λ c, eq_str c label) s).

(** [pd.to_numeric(series, errors='coerce')] on one cell.  The text-to-number
    parser is pandas' own and is a parameter here: [None] is a text that does
    not parse. *)
Definition to_numeric (parse_number : string → option Q) (c : cell) : cell :=
  match c with
  | Str s => match parse_number s with Some q => Num q | None => NaN end
  | Num q => Num q
  | NaN => NaN
  end.

(** The numbers of a float64 column, NaN skipped.  The scripts take means of
    columns that went through [to_numeric] and hold no text; on a column
    that still holds text pandas raises TypeError, a call the scripts never
    make and the model does not cover. *)
Definition numbers (s : list cell) : list Q :=
  omap (λ c, match c with Num q => Some q | _ => None end) s.

Definition Qsum (l : list Q) : Q := foldr Qplus 0%Q l.

(** [series.mean()]: NaN ([None]) for a column without any number, and
    otherwise the sum of the numbers divided by their count.  The model holds
    the exact quotient, which the float64 result of pandas approximates: on
    rank answers, small integers, the float64 sum is exact and the result is
    that quotient rounded once.  The statements about rankings rest on the
    order of the means, not on their digits. *)
Definition mean (s : list cell) : option Q :=
  match numbers s with
  | [] => None
  | v => Some (Qsum v / inject_Z (Z.of_nat (length v)))%Q
  end.

(** A pandas Series of floats indexed by labels. *)
Abbreviation FloatSeries := (list (string * option Q)).

(** [df[cols].mean()] *)
Definition mean_of_columns (df : DataFrame) (cols : list string) : FloatSeries :=
  (λ c, (c, mean (series df c))) <$> cols.

Definition non_nan (s : FloatSeries) : list (string * Q) :=
  omap (λ kv, (λ q, (kv.1, q)) <$> kv.2) s.

Definition nan_only (s : FloatSeries) : FloatSeries :=
  List.filter (λ kv, bool_decide (kv.2 = None)) s.

(** [series.sort_values()], ascending with NaN last, as pandas computes it:
    the non-NaN values go through numpy's [argsort] of the default kind
    (quicksort), the NaN entries are appended in their original order.  The
    scripts do not ask for a stable kind, and numpy promises no tie order for
    the default one, so [argsort] is a parameter: it returns the positions of
    its argument in the order it ranks them. *)
Definition sort_values (argsort : list Q → list nat) (s : FloatSeries) : FloatSeries :=
  let vals := non_nan s in
  omap (λ i, (λ kq, (kq.1, Some kq.2)) <$> vals !! i) (argsort (snd <$> vals))
    ++ nan_only s.

(** [series.rename(index=mapping)]: a label outside the mapping is kept. *)
Definition rename (mapping : gmap string string) (s : FloatSeries) : FloatSeries :=
  (λ kv, (default kv.1 (mapping !! kv.1), kv.2)) <$> s.

(** [series.index[0]] and [series.iloc[0]], [series.index[-1]] and
    [series.iloc[-1]]. *)
Definition first_entry (s : FloatSeries) : M (string * option Q) :=
  match s with kv :: _ => mret kv | [] => raise IndexError end.

Definition last_entry (s : FloatSeries) : M (string * option Q) :=
  match last s with Some kv => mret kv | None => raise IndexError end.

(** [series[label]] *)
Definition at_label (s : FloatSeries) (label : string) : M (option Q) :=
  match List.find (λ kv, bool_decide (kv.1 = label)) s with
  | Some kv => mret kv.2
  | None => raise (KeyError label)
  end.

(** [mapping[key]] on a Python dict. *)
Definition dict_get {A : Type} (d : gmap string A) (key : string) : M A :=
  match d !! key with Some v => mret v | None => raise (KeyError key) end.

Definition filepath : string :=
  "Alternative CPA Pathways Survey_December 31, 2025_09.45.csv".

(** ** analyze_survey.py *)

Module Survey.

(** The dict comprehension keeps the last text of a repeated code. *)
Definition load_and_clean_data (path : string) : M (DataFrame * gmap string string) :=
  '(df, texts) ← read_csv_two_headers path;
  let question_map : gmap string string :=
    list_to_map (reverse (zip (columns df) texts)) in
  c ← iloc_0_0 df;
  let df := if is_import_marker c then mkDF (columns df) (tail (rows df)) else df in
  mret (df, question_map).

Definition q35_map : gmap string Z :=
  list_to_map [("Extremely unlikely", 1%Z); ("Somewhat unlikely", 2%Z);
               ("Neither likely nor unlikely", 3%Z); ("Somewhat likely", 4%Z);
               ("Extremely likely", 5%Z)].

Record Metrics1 : Type := mkMetrics1 {
  Total_Grad_Students : nat;
  Pct_Unaware : Q;
  Pct_Potential_Loss_of_Unaware : Q;
  Pct_Potential_Loss_Total : Q
}.

(** The tables and counts that [area_1_enrollment_threat] builds on the
    way. *)
Definition grad_students (df : DataFrame) : DataFrame :=
  select (λ r, eq_str (cell_of r "Q27") "Graduate") df.

Definition unaware_grad (df : DataFrame) : DataFrame :=
  setitem "Q35_numeric" (λ r, map_dict q35_map (cell_of r "Q35"))
    (select (λ r, eq_str (cell_of r "Q31") "No") (grad_students df)).

Definition potential_loss_count (df : DataFrame) : nat :=
  len (select (λ r, le_num (cell_of r "Q35_numeric") 2) (unaware_grad df)).

(** The argument [df] of the three area functions is the caller's table
    object, which the state holds as [frame]; a [.copy()] is a value of its
    own. *)
Definition area_1_enrollment_threat : M Metrics1 :=
  df ← get_frame;
  require_column df "Q27";;
  let total_grad := len (grad_students df) in
  require_column df "Q31";;
  let num_unaware := len (unaware_grad df) in
  let pct_unaware := pct_or_zero num_unaware total_grad in
  require_column df "Q35";;
  let pct_potential_loss_of_unaware :=
    pct_or_zero (potential_loss_count df) num_unaware in
  let pct_potential_loss_total :=
    pct_or_zero (potential_loss_count df) total_grad in
  write_artifact "enrollment_threat.png";;
  mret (mkMetrics1 total_grad pct_unaware pct_potential_loss_of_unaware
          pct_potential_loss_total).

Definition roi_map : gmap string Z :=
  list_to_map [("Definitely not", 1%Z); ("Probably not", 2%Z);
               ("Might or might not", 3%Z); ("Probably yes", 4%Z);
               ("Definitely yes", 5%Z)].

Record Metrics2 : Type := mkMetrics2 {
  Num_Reluctant_Students : nat;
  Pct_Reluctant_Students : Q
}.

Definition ROI_Belief_Raw (r : Row) : cell :=
  fillna (cell_of r "Q55") (cell_of r "Q44").

Definition ROI_Belief_Score (r : Row) : cell :=
  map_dict roi_map (cell_of r "ROI_Belief_Raw").

Definition roi_df (df : DataFrame) : DataFrame :=
  select (λ r, notna (cell_of r "ROI_Belief_Score") && notna (cell_of r "Q49")) df.

Definition reluctant (df : DataFrame) : DataFrame :=
  select (λ r, le_num (cell_of r "ROI_Belief_Score") 3
               && eq_str (cell_of r "Q49") "Yes") (roi_df df).

(** Both assignments go to the caller's table object. *)
Definition area_2_roi_pressure : M Metrics2 :=
  df ← get_frame;
  require_columns df ["Q55"; "Q44"];;
  set_frame (setitem "ROI_Belief_Raw" ROI_Belief_Raw df);;
  df ← get_frame;
  set_frame (setitem "ROI_Belief_Score" ROI_Belief_Score df);;
  df ← get_frame;
  require_column df "Q49";;
  let num_reluctant := len (reluctant df) in
  pct_reluctant ← pct num_reluctant (len (roi_df df));
  write_artifact "roi_vs_pressure.png";;
  mret (mkMetrics2 num_reluctant pct_reluctant).

Definition cols : list string :=
  ["Q24_1"; "Q24_2"; "Q24_3"; "Q24_4"; "Q24_5"; "Q24_6"].

Definition labels : gmap string string :=
  list_to_map [("Q24_1", "CPA Prep"); ("Q24_2", "Networking");
               ("Q24_3", "Faculty Interaction"); ("Q24_4", "Technical Skills");
               ("Q24_5", "Soft Skills"); ("Q24_6", "Recruiting")].

Record Metrics3 : Type := mkMetrics3 {
  Top_Feature : string;
  Top_Feature_Score : option Q;
  Bottom_Feature : string;
  Bottom_Feature_Score : option Q
}.

Section Area3.
Variable parse_number : string → option Q.
Variable argsort : list Q → list nat.

(** [for col in cols: df[col] = pd.to_numeric(df[col], errors='coerce')],
    each assignment replacing the column of the caller's table. *)
Fixpoint coerce_columns (cs : list string) : M unit :=
  match cs with
  | [] => mret ()
  | col :: cs' =>
      df ← get_frame;
      require_column df col;;
      set_frame (setitem col (λ r, to_numeric parse_number (cell_of r col)) df);;
      coerce_columns cs'
  end.

Definition area_3_program_value : M Metrics3 :=
  coerce_columns cols;;
  df ← get_frame;
  let mean_ranks := sort_values argsort (mean_of_columns df cols) in
  write_artifact "program_value.png";;
  top ← first_entry mean_ranks;
  top_label ← dict_get labels top.1;
  bottom ← last_entry mean_ranks;
  bottom_label ← dict_get labels bottom.1;
  mret (mkMetrics3 top_label top.2 bottom_label bottom.2).

Definition export_summary (metrics_1 : Metrics1) (metrics_2 : Metrics2)
    (metrics_3 : Metrics3) : M unit :=
  write_artifact "cpa_pathway_summary.csv".

Definition main : M unit :=
  '(df, _) ← load_and_clean_data filepath;
  set_frame df;;
  m1 ← area_1_enrollment_threat;
  m2 ← area_2_roi_pressure;
  m3 ← area_3_program_value;
  export_summary m1 m2 m3.
End Area3.

End Survey.

(** ** analyze_awareness_impact.py *)

Module AwarenessImpact.

Definition load_and_clean_data (path : string) : M DataFrame :=
  '(df, _) ← read_csv_two_headers path;
  c ← iloc_0_0 df;
  let df := if is_import_marker c then mkDF (columns df) (tail (rows df)) else df in
  mret df.

Record GapMetrics : Type := mkGapMetrics {
  grad_unaware_pct : Q;
  undergrad_unaware_pct : Q
}.

Definition grad_df (df : DataFrame) : DataFrame :=
  select (λ r, eq_str (cell_of r "Q27") "Graduate" && notna (cell_of r "Q31")) df.

Definition undergrad_df (df : DataFrame) : DataFrame :=
  select (λ r, eq_str (cell_of r "Q27") "Undergraduate" && notna (cell_of r "Q53")) df.

(** The counts and percentages of the aware students feed the printout and
    the chart only and are left out. *)
Definition analyze_awareness_gap (df : DataFrame) : M GapMetrics :=
  require_columns df ["Q27"; "Q31"];;
  let total_grad := len (grad_df df) in
  let unaware_grad_count := count_label (series (grad_df df) "Q31") "No" in
  let pct_unaware_grad := pct_or_zero unaware_grad_count total_grad in
  require_columns df ["Q27"; "Q53"];;
  let total_undergrad := len (undergrad_df df) in
  let unaware_undergrad_count := count_label (series (undergrad_df df) "Q53") "No" in
  let pct_unaware_undergrad := pct_or_zero unaware_undergrad_count total_undergrad in
  write_artifact "awareness_gap.png";;
  mret (mkGapMetrics pct_unaware_grad pct_unaware_undergrad).

Record IncentiveMetrics : Type := mkIncentiveMetrics {
  regret_pct : Q
}.

Definition unaware_grads (df : DataFrame) : DataFrame :=
  select (λ r, eq_str (cell_of r "Q27") "Graduate" && eq_str (cell_of r "Q31") "No"
               && notna (cell_of r "Q35")) df.

Definition unlikely_count (df : DataFrame) : nat :=
  count_label (series (unaware_grads df) "Q35") "Extremely unlikely"
  + count_label (series (unaware_grads df) "Q35") "Somewhat unlikely".

(** The Q52 distributions are printed and drawn, not returned; what remains
    of them here is the columns they read. *)
Definition analyze_incentive_shift (df : DataFrame) : M IncentiveMetrics :=
  require_columns df ["Q27"; "Q52"];;
  write_artifact "incentive_shift_pie.png";;
  require_columns df ["Q27"; "Q31"; "Q35"];;
  let total_unaware_grads := len (unaware_grads df) in
  let pct_unlikely := pct_or_zero (unlikely_count df) total_unaware_grads in
  require_columns df ["Q27"; "Q53"; "Q52"];;
  mret (mkIncentiveMetrics pct_unlikely).

Definition main : M unit :=
  df ← load_and_clean_data filepath;
  set_frame df;;
  metrics_gap ← analyze_awareness_gap df;
  metrics_incentive ← analyze_incentive_shift df;
  write_artifact "awareness_impact_summary.txt".

End AwarenessImpact.

(** ** analyze_irreplaceability.py *)

Module Irreplaceability.

Definition file_path : string := filepath.

Definition columns_mapping : gmap string string :=
  list_to_map [("Q24_1", "CPA Exam Prep"); ("Q24_2", "Networking (Peers/Alumni)");
               ("Q24_3", "Faculty Interaction"); ("Q24_4", "Technical Skills");
               ("Q24_5", "Soft Skills"); ("Q24_6", "Recruiting/Internships")].

Definition relevant_columns : list string :=
  ["Q24_1"; "Q24_2"; "Q24_3"; "Q24_4"; "Q24_5"; "Q24_6"].

(** The [try] block around [pd.read_csv]. *)
Definition load : M DataFrame :=
  try_except_FileNotFound (read_csv file_path)
    (λ _, print ("Error: File not found at " +:+ file_path);;
          raise (SystemExit 1)).

(** [df.drop(0)]: the row labelled 0, the question texts, is removed; a
    table without it raises KeyError. *)
Definition drop_0 (df : DataFrame) : M DataFrame :=
  match rows df with
  | _ :: rest => mret (mkDF (columns df) rest)
  | [] => raise (KeyError "0")
  end.

(** The table the script works on once its loading steps are done. *)
Definition loaded : M DataFrame := df ← load; drop_0 df.

(** [df[relevant_columns].copy()] *)
Definition subset (df : DataFrame) : M DataFrame :=
  require_columns df relevant_columns;;
  mret (mkDF relevant_columns
          (List.map (λ r : Row, filter (λ kv, kv.1 ∈ relevant_columns) r) (rows df))).

Definition coerce (parse_number : string → option Q) (df_subset : DataFrame) : DataFrame :=
  foldl (λ d col, setitem col (λ r, to_numeric parse_number (cell_of r col)) d)
        df_subset relevant_columns.

(** Comparisons of floats: anything against NaN is False. *)
Definition lt_float (a b : option Q) : bool :=
  match a, b with Some x, Some y => negb (Qle_bool y x) | _, _ => false end.

(** Python's [min(a, b)] and [max(a, b)] return [a] unless [b] compares
    strictly below, respectively above, it. *)
Definition min_float (a b : option Q) : option Q := if lt_float b a then b else a.
Definition max_float (a b : option Q) : option Q := if lt_float a b then b else a.

Inductive Insight : Type :=
| TechnicalFirst
| TechnicalLast
| TechnicalBetween.

Record Insights : Type := mkInsights {
  most_essential : string;
  technical_score : option Q;
  networking_score : option Q;
  recruiting_score : option Q;
  comparison_insight : Insight
}.

Section Script.
Variable parse_number : string → option Q.
Variable argsort : list Q → list nat.

Definition sorted_ranks (df_subset : DataFrame) : FloatSeries :=
  sort_values argsort
    (rename columns_mapping
       (mean_of_columns (coerce parse_number df_subset) relevant_columns)).

Definition main : M Insights :=
  df ← loaded;
  set_frame df;;
  df_subset ← subset df;
  let ranks := sorted_ranks df_subset in
  top ← first_entry ranks;
  technical ← at_label ranks "Technical Skills";
  networking ← at_label ranks "Networking (Peers/Alumni)";
  recruiting ← at_label ranks "Recruiting/Internships";
  let insight :=
    if lt_float technical (min_float networking recruiting) then TechnicalFirst
    else if lt_float (max_float networking recruiting) technical then TechnicalLast
    else TechnicalBetween in
  write_artifact "insights.txt";;
  write_artifact "program_irreplaceability.png";;
  mret (mkInsights top.1 technical networking recruiting insight).
End Script.

End Irreplaceability.

(** ** Properties stated about the scripts *)

(** What numpy's [argsort] promises for a call on [v]: the positions
    [0 .. len(v)-1], each once, in an order that reads [v] ascending. *)
Definition picked (v : list Q) (idx : list nat) : list Q :=
  omap (λ i, v !! i) idx.

Definition is_argsort (v : list Q) (idx : list nat) : Prop :=
  idx ≡ₚ seq 0 (length v) ∧ Sorted Qle (picked v idx).

(** A ranking is ascending when its numbers never decrease and every NaN
    comes after every number. *)
Definition in_order (a b : option Q) : Prop :=
  match a, b with
  | Some x, Some y => (x <= y)%Q
  | None, Some _ => False
  | _, None => True
  end.

Definition ascending (s : FloatSeries) : Prop :=
  ∀ (i j : nat) (a b : string * option Q),
    i < j → s !! i = Some a → s !! j = Some b → in_order a.2 b.2.



(** Two argsorts of the default kind.  [sort_values] asks for neither:
    which one runs depends on the build of numpy and on the processor.

    Without vector instructions, numpy's quicksort sorts a run of at most 16
    elements by insertion: each position moves in front of the strictly
    larger values ranked before it, so that equal values stay in the order
    they came. *)
Fixpoint insert_position (before : Q → Q → bool) (v : list Q) (i : nat)
    (ranked : list nat) : list nat :=
  match ranked with
  | [] => [i]
  | j :: rest =>
      if before (default 0%Q (v !! i)) (default 0%Q (v !! j))
      then i :: j :: rest
      else j :: insert_position before v i rest
  end.

Definition argsort_by (before : Q → Q → bool) (v : list Q) : list nat :=
  foldl (λ ranked i, insert_position before v i ranked) [] (seq 0 (length v)).

Definition argsort_stable : list Q → list nat :=
  argsort_by (λ x y, negb (Qle_bool y x)).

(** Where the processor has AVX-512, numpy sorts an array of at most eight
    float64 in one vector register of (value, position) pairs, through a
    bitonic network of six layers; the lanes past the end of the array hold
    +inf, here [None].  In a layer, lane [i] meets lane [partner i] and keeps
    the smaller of the two values, or the larger one where [upper i]; it
    takes the partner's position along unless the value it keeps equals its
    own.  Equal values are never exchanged with each other, but an exchange
    with a third value can carry one past the other. *)
Definition lane : Type := option Q * nat.

Definition key_le (a b : option Q) : bool :=
  match a, b with
  | Some x, Some y => Qle_bool x y
  | _, None => true
  | None, Some _ => false
  end.

Definition compare_exchange (partner : list nat) (upper : list bool)
    (lanes : list lane) : list lane :=
  imap (λ i own,
          let other := default own (p ← partner !! i; lanes !! p) in
          let kept :=
            if default false (upper !! i)
            then (if key_le own.1 other.1 then other.1 else own.1)
            else (if key_le own.1 other.1 then own.1 else other.1) in
          (kept, if key_le kept own.1 && key_le own.1 kept then own.2 else other.2))
       lanes.

Definition bitonic_layers : list (list nat * list bool) :=
  let neighbours := [1; 0; 3; 2; 5; 4; 7; 6] in
  let odd := [false; true; false; true; false; true; false; true] in
  let upper_pairs := [false; false; true; true; false; false; true; true] in
  [ (neighbours, odd);
    ([3; 2; 1; 0; 7; 6; 5; 4], upper_pairs);
    (neighbours, odd);
    ([7; 6; 5; 4; 3; 2; 1; 0], [false; false; false; false; true; true; true; true]);
    ([2; 3; 0; 1; 6; 7; 4; 5], upper_pairs);
    (neighbours, odd) ].

(** The scripts rank six means and never reach the wider networks that sort
    longer arrays; the insertion order stands in for them. *)
Definition argsort_bitonic (v : list Q) : list nat :=
  let n := length v in
  if bool_decide (n ≤ 8)
  then
    let lanes := zip ((Some <$> v) ++ replicate (8 - n) None)
                     (seq 0 n ++ replicate (8 - n) 0) in
    take n (snd <$> foldl (λ l layer, compare_exchange layer.1 layer.2 l)
                      lanes bitonic_layers)
  else argsort_stable v.

(** A parser for the rank answers of the export, unsigned decimal integers;
    it stands in for pandas' parser on the sample tables below. *)
Definition digit (a : Ascii.ascii) : option Z :=
  let n := Z.of_nat (Ascii.nat_of_ascii a) in
  if bool_decide (48 ≤ n ≤ 57)%Z then Some (n - 48)%Z else None.

Fixpoint parse_digits (acc : Z) (s : string) : option Z :=
  match s with
  | EmptyString => Some acc
  | String a s' => d ← digit a; parse_digits (10 * acc + d)%Z s'
  end.

Definition parse_decimal (s : string) : option Q :=
  match s with
  | EmptyString => None
  | _ => inject_Z <$> parse_digits 0 s
  end.

(** Sample inputs. *)
Definition answers (l : list (string * string)) : Row :=
  list_to_map ((λ kv, (kv.1, to_cell kv.2)) <$> l).

Definition survey_columns : list string :=
  ["StartDate"; "Q27"; "Q31"; "Q35"; "Q55"; "Q44"; "Q49"; "Q52"; "Q53";
   "Q24_1"; "Q24_2"; "Q24_3"; "Q24_4"; "Q24_5"; "Q24_6"].

Definition process_with (df : DataFrame) : Proc := mkProc ∅ df [] [].

Definition process_on_disk (f : csv) : Proc :=
  mkProc {[ filepath := f ]} (mkDF [] []) [] [].

(** One undergraduate who left the ROI and employer questions blank. *)
Definition no_roi_answers : DataFrame :=
  mkDF survey_columns [answers [("Q27", "Undergraduate"); ("Q53", "Yes")]].

(** Two graduates, one unaware of the pathway, one who skipped Q31. *)
Definition blank_awareness : DataFrame :=
  mkDF survey_columns
    [answers [("Q27", "Graduate"); ("Q31", "No"); ("Q35", "Somewhat likely")];
     answers [("Q27", "Graduate")]].

(** Five unaware graduates whose Q35 answers code to 1, 2, missing, 4, 5;
    the third is blank in the first table and an out-of-set label in the
    second. *)
Definition unaware_graduate (q35 : string) : Row :=
  answers [("Q27", "Graduate"); ("Q31", "No"); ("Q35", q35)].

Definition scenario_B_blank : DataFrame :=
  mkDF survey_columns
    (unaware_graduate <$> ["Extremely unlikely"; "Somewhat unlikely"; EmptyString;
                           "Somewhat likely"; "Extremely likely"]).

Definition scenario_B_bad : DataFrame :=
  mkDF survey_columns
    (unaware_graduate <$> ["Extremely unlikely"; "Somewhat unlikely"; "bad";
                           "Somewhat likely"; "Extremely likely"]).

(** Two respondents' rankings; the second left a word in Q24_3.  Q24_1 and
    Q24_2 both average 3/2, and no other two columns share a mean. *)
Definition rankings : DataFrame :=
  mkDF survey_columns
    [answers [("Q24_1", "2"); ("Q24_2", "1"); ("Q24_3", "3"); ("Q24_4", "4");
              ("Q24_5", "5"); ("Q24_6", "6")];
     answers [("Q24_1", "1"); ("Q24_2", "2"); ("Q24_3", "three"); ("Q24_4", "4");
              ("Q24_5", "5"); ("Q24_6", "6")]].


(** An export with its two header lines, the metadata line and one
    response. *)
Definition metadata_cell (qid : string) : string :=
  import_marker +:+ ":" +:+ String dquote (qid +:+ String dquote "}").

Definition export_with_metadata : csv :=
  [ ["StartDate"; "Q27"; "Q24_1"; "Q24_2"; "Q24_3"; "Q24_4"; "Q24_5"; "Q24_6"];
    ["Start Date"; "Level"; "Rank 1"; "Rank 2"; "Rank 3"; "Rank 4"; "Rank 5"; "Rank 6"];
    metadata_cell <$> ["startDate"; "QID27"; "QID24_1"; "QID24_2"; "QID24_3";
                       "QID24_4"; "QID24_5"; "QID24_6"];
    ["2025-12-01"; "Graduate"; "1"; "2"; "3"; "4"; "5"; "6"] ].

(** Three respondents: one answered Q55 and Q44, one Q44 only, one
    neither. *)
Definition roi_answers : DataFrame :=
  mkDF survey_columns
    [answers [("Q55", "Probably yes"); ("Q44", "Definitely not"); ("Q49", "Yes")];
     answers [("Q44", "Probably not"); ("Q49", "Yes")];
     answers [("Q49", "No")]].

(** An export on which the three scripts run to their end. *)
Definition export_complete : csv :=
  [ ["StartDate"; "Q27"; "Q31"; "Q35"; "Q55"; "Q44"; "Q49"; "Q52"; "Q53";
     "Q24_1"; "Q24_2"; "Q24_3"; "Q24_4"; "Q24_5"; "Q24_6"];
    ["Start Date"; "Level"; "Aware"; "Likelihood"; "ROI"; "ROI"; "Employer";
     "Desire"; "Aware"; "Rank 1"; "Rank 2"; "Rank 3"; "Rank 4"; "Rank 5"; "Rank 6"];
    metadata_cell <$> ["startDate"; "QID27"; "QID31"; "QID35"; "QID55"; "QID44";
                       "QID49"; "QID52"; "QID53"; "QID24_1"; "QID24_2"; "QID24_3";
                       "QID24_4"; "QID24_5"; "QID24_6"];
    ["2025-12-01"; "Graduate"; "No"; "Somewhat unlikely"; "Probably not";
     EmptyString; "Yes"; EmptyString; EmptyString; "1"; "2"; "3"; "4"; "5"; "6"];
    ["2025-12-02"; "Undergraduate"; EmptyString; EmptyString; EmptyString;
     "Definitely yes"; "No"; "Increased"; "Yes"; "2"; "1"; "4"; "3"; "6"; "5"] ].

(** An export whose only respondent, a graduate, answered none of Q55, Q44
    and Q49. *)
Definition export_blank_roi : csv :=
  [ ["StartDate"; "Q27"; "Q31"; "Q35"; "Q55"; "Q44"; "Q49";
     "Q24_1"; "Q24_2"; "Q24_3"; "Q24_4"; "Q24_5"; "Q24_6"];
    ["Start Date"; "Level"; "Aware"; "Likelihood"; "ROI"; "ROI"; "Employer";
     "Rank 1"; "Rank 2"; "Rank 3"; "Rank 4"; "Rank 5"; "Rank 6"];
    metadata_cell <$> ["startDate"; "QID27"; "QID31"; "QID35"; "QID55"; "QID44";
                       "QID49"; "QID24_1"; "QID24_2"; "QID24_3"; "QID24_4";
                       "QID24_5"; "QID24_6"];
    ["2025-12-01"; "Graduate"; "Yes"; EmptyString; EmptyString; EmptyString;
     EmptyString; "1"; "2"; "3"; "4"; "5"; "6"] ].

(** The [rankings] table after the coercion loop of
    [area_3_program_value], and the means of its ranking columns. *)
Definition rankings_coerced : DataFrame :=
  frame (Survey.coerce_columns parse_decimal Survey.cols (process_with rankings)).2.

Definition rankings_means : FloatSeries :=
  mean_of_columns rankings_coerced Survey.cols.

(** The caller's table once [area_2_roi_pressure] has added its two derived
    columns. *)
Definition coded (df : DataFrame) : DataFrame :=
  setitem "ROI_Belief_Score" Survey.ROI_Belief_Score
    (setitem "ROI_Belief_Raw" Survey.ROI_Belief_Raw df).

(** The number a cell holds after coercion, if any. *)
Definition parsed (parse_number : string → option Q) (c : cell) : option Q :=
  match c with
  | Str s => parse_number s
  | Num q => Some q
  | NaN => None
  end.

(** One row after the coercion of the columns [cs], in turn. *)
Definition coerce_row (parse_number : string → option Q) (cs : list string) (r : Row) : Row :=
  foldl (λ r col, <[col := to_numeric parse_number (cell_of r col)]> r) r cs.

(** The result of a computation that returned, as an option. *)
Definition returned {A : Type} (r : (exn + A) * Proc) : option A :=
  match r.1 with inr a => Some a | inl _ => None end.

Definition some_entry (kq : string * Q) : string * option Q := (kq.1, Some kq.2).

(** ** Notions used by the further properties *)

(** The ranking columns of a table after the coercion loop. *)
Definition coerced (parse_number : string → option Q) (df : DataFrame) : DataFrame :=
  foldl (λ d col, setitem col (λ r, to_numeric parse_number (cell_of r col)) d)
    df Survey.cols.


(** The columns that [analyze_survey.py] adds or overwrites. *)
Definition derived_columns : list string :=
  ["ROI_Belief_Raw"; "ROI_Belief_Score"] ++ Survey.cols.

(** Two tables with the same number of rows and the same cells in every
    column outside [cs]. *)
Definition same_outside (cs : list string) (df df' : DataFrame) : Prop :=
  len df' = len df ∧ ∀ c : string, c ∉ cs → series df' c = series df c.

(** A computation that takes the caller's table to an [R]-related one,
    whether it returns or raises. *)
Definition frame_keeps {A : Type} (R : DataFrame → DataFrame → Prop) (m : M A) : Prop :=
  ∀ st : Proc, R (frame st) (frame (m st).2).

(** A computation that appends to the artifacts written so far a prefix of
    [names], in that order, and all of them when it returns. *)
Definition artifacts_extend {A : Type} (names : list string) (m : M A) : Prop :=
  ∀ st : Proc, ∃ k : nat,
    k ≤ length names
    ∧ written (m st).2 = written st ++ take k names
    ∧ (∀ a, (m st).1 = inr a → k = length names).

(** The three-way comparison at the end of [analyze_irreplaceability.py], as
    a function of the three scores it reads. *)
Definition comparison_insight_of (technical networking recruiting : option Q)
    : Irreplaceability.Insight :=
  if Irreplaceability.lt_float technical (Irreplaceability.min_float networking recruiting)
  then Irreplaceability.TechnicalFirst
  else if Irreplaceability.lt_float (Irreplaceability.max_float networking recruiting) technical
       then Irreplaceability.TechnicalLast
       else Irreplaceability.TechnicalBetween.

(** An export that stops after its two header lines: what follows them is
    blank. *)
Definition export_headers_only : csv := take 2 export_complete ++ [[]; [EmptyString]].

(** The ranking cells of the export's metadata line, as a row. *)
Definition metadata_rankings : Row :=
  answers ((λ c, (c, metadata_cell ("QID" +:+ c))) <$> Survey.cols).

(** ** Basic facts about the monad and the table operations *)

Lemma bind_raise {A B : Type} (m : M A) (k : A → M B) (e : exn) (st st' : Proc) :
  m st = (inl e, st') → (m ≫= k) st = (inl e, st').
Proof. intros H. unfold mbind, M_bind. by rewrite H. Qed.

Lemma bind_ok {A B : Type} (m : M A) (k : A → M B) (a : A) (st st' : Proc) :
  m st = (inr a, st') → (m ≫= k) st = k a st'.
Proof. intros H. unfold mbind, M_bind. by rewrite H. Qed.

Lemma cell_of_insert_eq (r : Row) (c : string) (v : cell) :
  cell_of (<[c := v]> r) c = v.
Proof. unfold cell_of. by rewrite lookup_insert_eq. Qed.

Lemma cell_of_insert_ne (r : Row) (c c' : string) (v : cell) :
  c ≠ c' → cell_of (<[c := v]> r) c' = cell_of r c'.
Proof. intros H. unfold cell_of. by rewrite lookup_insert_ne. Qed.


Lemma has_column_setitem (df : DataFrame) (c c' : string) (f : Row → cell) :
  has_column df c' = true → has_column (setitem c f df) c' = true.
Proof.
  intros H. unfold setitem, has_column in *. cbn [columns].
  apply bool_decide_eq_true in H. apply bool_decide_eq_true.
  destruct (bool_decide (c ∈ columns df)); [done|]. apply elem_of_app. by left.
Qed.

Lemma pct_or_zero_empty (num : nat) : pct_or_zero num 0 = 0%Q.
Proof. reflexivity. Qed.

Lemma pct_empty (num : nat) (st : Proc) : pct num 0 st = (inl ZeroDivisionError, st).
Proof. reflexivity. Qed.

Lemma pct_nonempty (num den : nat) (st : Proc) :
  den ≠ 0 → pct num den st = (inr (pct_or_zero num den), st).
Proof.
  intros H. unfold pct, pct_or_zero.
  rewrite bool_decide_eq_false_2 by done. rewrite bool_decide_eq_true_2 by lia. done.
Qed.

(** ** Percentages and their denominators *)


Lemma area_2_run (st : Proc) :
  has_column (frame st) "Q55" = true → has_column (frame st) "Q44" = true →
  has_column (frame st) "Q49" = true →
  Survey.area_2_roi_pressure st
  = if bool_decide (len (Survey.roi_df (coded (frame st))) = 0)
    then (inl ZeroDivisionError,
          mkProc (disk st) (coded (frame st)) (written st) (printed st))
    else (inr (Survey.mkMetrics2 (len (Survey.reluctant (coded (frame st))))
                 (pct_or_zero (len (Survey.reluctant (coded (frame st))))
                    (len (Survey.roi_df (coded (frame st)))))),
          mkProc (disk st) (coded (frame st)) (written st ++ ["roi_vs_pressure.png"])
            (printed st)).
Proof.
  intros H55 H44 H49.
  assert (H49' : has_column (coded (frame st)) "Q49" = true).
  { unfold coded. by do 2 apply has_column_setitem. }
  unfold Survey.area_2_roi_pressure, require_columns, require_column, get_frame,
    set_frame, mbind, M_bind, mret, M_ret.
  cbn [frame]. rewrite H55, H44. cbn [frame disk written printed].
  fold (coded (frame st)). rewrite H49'.
  case_bool_decide as Hlen.
  - rewrite Hlen. reflexivity.
  - rewrite pct_nonempty by done. reflexivity.
Qed.

(** C1 (the code departs from the claim).  The percentages of
    [area_1_enrollment_threat] are guarded and come out 0 when nobody is in
    the subset, but the reluctant-students percentage of
    [area_2_roi_pressure] divides by [len(roi_df)] unguarded: on a table in
    which no row has both an ROI score and a Q49 answer the subset is empty,
    the division raises ZeroDivisionError, and the script run on such an
    export ends with that exception after writing its first chart only. *)
Theorem reluctant_pct_divides_by_zero :
  len (Survey.roi_df (coded no_roi_answers)) = 0
  ∧ (Survey.area_2_roi_pressure (process_with no_roi_answers)).1 = inl ZeroDivisionError
  ∧ (Survey.area_1_enrollment_threat (process_with no_roi_answers)).1
    = inr (Survey.mkMetrics1 0 0 0 0)
  ∧ (let out := run_script (Survey.main parse_decimal argsort_stable)
                  (process_on_disk export_blank_roi) in
     exit_code out = 1%Z ∧ traceback out = Some ZeroDivisionError
     ∧ written (final out) = ["enrollment_threat.png"]).
Proof. vm_compute. repeat split; reflexivity. Qed.

(** C2 (the code departs from the claim).  With two graduates, one answering
    Q31 with No and one leaving it blank, [area_1_enrollment_threat] divides
    the one unaware graduate by both graduates and reports 50%, the blank
    answer staying in the denominator; [analyze_awareness_gap] drops the
    blank row first and reports 100% on the same table. *)
Theorem unaware_pct_keeps_blank_Q31_in_denominator :
  ∃ (m : Survey.Metrics1) (g : AwarenessImpact.GapMetrics),
    returned (Survey.area_1_enrollment_threat (process_with blank_awareness)) = Some m
    ∧ returned (AwarenessImpact.analyze_awareness_gap blank_awareness
                  (process_with blank_awareness)) = Some g
    ∧ Survey.Total_Grad_Students m = 2
    ∧ len (AwarenessImpact.grad_df blank_awareness) = 1
    ∧ (Survey.Pct_Unaware m == 50)%Q
    ∧ (AwarenessImpact.grad_unaware_pct g == 100)%Q.
Proof.
  do 2 eexists. split; [vm_compute; reflexivity|]. split; [vm_compute; reflexivity|].
  vm_compute. repeat split; reflexivity.
Qed.

(** C3 (the code departs from the claim).  Five unaware graduates whose Q35
    answers code to 1, 2, missing, 4, 5: [area_1_enrollment_threat] counts
    the two codes at or below 2 and divides by all five rows, 40%, whether
    the third answer is blank or an out-of-set label; the claim's valid
    count 4 and 50% are what [analyze_incentive_shift] computes when the
    third answer is blank.  An out-of-set label stays in its denominator
    too. *)
Theorem threshold_pct_divides_by_subset_size :
  series (Survey.unaware_grad scenario_B_bad) "Q35_numeric"
    = [Num 1; Num 2; NaN; Num 4; Num 5]
  ∧ series (Survey.unaware_grad scenario_B_blank) "Q35_numeric"
    = [Num 1; Num 2; NaN; Num 4; Num 5]
  ∧ Survey.potential_loss_count scenario_B_bad = 2
  ∧ Survey.potential_loss_count scenario_B_blank = 2
  ∧ len (Survey.unaware_grad scenario_B_bad) = 5
  ∧ len (Survey.unaware_grad scenario_B_blank) = 5
  ∧ (∃ m, returned (Survey.area_1_enrollment_threat (process_with scenario_B_bad)) = Some m
          ∧ (Survey.Pct_Potential_Loss_of_Unaware m == 40)%Q)
  ∧ (∃ m, returned (Survey.area_1_enrollment_threat (process_with scenario_B_blank)) = Some m
          ∧ (Survey.Pct_Potential_Loss_of_Unaware m == 40)%Q)
  ∧ len (AwarenessImpact.unaware_grads scenario_B_blank) = 4
  ∧ AwarenessImpact.unlikely_count scenario_B_blank = 2
  ∧ (∃ i, returned (AwarenessImpact.analyze_incentive_shift scenario_B_blank
                      (process_with scenario_B_blank)) = Some i
          ∧ (AwarenessImpact.regret_pct i == 50)%Q)
  ∧ len (AwarenessImpact.unaware_grads scenario_B_bad) = 5
  ∧ (∃ i, returned (AwarenessImpact.analyze_incentive_shift scenario_B_bad
                      (process_with scenario_B_bad)) = Some i
          ∧ (AwarenessImpact.regret_pct i == 40)%Q).
Proof.
  repeat split; try (vm_compute; reflexivity);
    (eexists; split; [vm_compute; reflexivity|vm_compute; reflexivity]).
Qed.

(** ** Means and their ranking *)

Lemma non_nan_nan_only_perm (s : FloatSeries) :
  (some_entry <$> non_nan s) ++ nan_only s ≡ₚ s.
Proof.
  induction s as [|[k [q|]] s IH]; [done| |].
  - cbn. by f_equiv.
  - change (non_nan ((k, None) :: s)) with (non_nan s).
    change (nan_only ((k, None) :: s)) with ((k, None) :: nan_only s).
    rewrite <- Permutation_middle. by f_equiv.
Qed.

Lemma omap_lookup_shift {A : Type} (x : A) (l : list A) (idx : list nat) :
  omap (λ i, (x :: l) !! i) (S <$> idx) = omap (λ i, l !! i) idx.
Proof. induction idx as [|i idx IH]; [done|]. cbn. by rewrite IH. Qed.

Lemma omap_lookup_seq {A : Type} (l : list A) :
  omap (λ i, l !! i) (seq 0 (length l)) = l.
Proof.
  induction l as [|x l IH]; [done|].
  cbn. rewrite <- fmap_S_seq, omap_lookup_shift. by rewrite IH.
Qed.

Lemma picked_entries_perm {A : Type} (l : list A) (idx : list nat) :
  idx ≡ₚ seq 0 (length l) → omap (λ i, l !! i) idx ≡ₚ l.
Proof. intros ->. by rewrite omap_lookup_seq. Qed.

Lemma sort_values_unfold (argsort : list Q → list nat) (s : FloatSeries) :
  sort_values argsort s
  = (some_entry <$> omap (λ i, non_nan s !! i) (argsort ((non_nan s).*2)))
      ++ nan_only s.
Proof. unfold sort_values. f_equal. by rewrite list_fmap_omap. Qed.

Lemma picked_values (vals : list (string * Q)) (idx : list nat) :
  (omap (λ i, vals !! i) idx).*2 = picked (vals.*2) idx.
Proof.
  unfold picked. rewrite list_fmap_omap. apply list_omap_ext.
  induction idx; constructor; [|done]. by rewrite list_lookup_fmap.
Qed.

Lemma nan_only_is_nan (s : FloatSeries) (kv : string * option Q) :
  kv ∈ nan_only s → kv.2 = None.
Proof.
  unfold nan_only. rewrite list_elem_of_In, filter_In. intros [_ H].
  by apply bool_decide_eq_true in H.
Qed.

#[local] Instance Qle_transitive : Transitive Qle.
Proof. intros x y z. apply Qle_trans. Qed.

Lemma sort_values_perm (argsort : list Q → list nat) (s : FloatSeries) :
  is_argsort ((non_nan s).*2) (argsort ((non_nan s).*2)) →
  sort_values argsort s ≡ₚ s.
Proof.
  intros [Hperm _]. rewrite sort_values_unfold.
  rewrite length_fmap in Hperm.
  rewrite (picked_entries_perm _ _ Hperm). apply non_nan_nan_only_perm.
Qed.

Lemma sort_values_ascending (argsort : list Q → list nat) (s : FloatSeries) :
  is_argsort ((non_nan s).*2) (argsort ((non_nan s).*2)) →
  ascending (sort_values argsort s).
Proof.
  intros [_ Hsorted]. rewrite sort_values_unfold.
  rewrite <- picked_values in Hsorted.
  apply stdpp.sorting.Sorted_StronglySorted in Hsorted; [|apply _].
  set (P := omap (λ i, non_nan s !! i) (argsort ((non_nan s).*2))) in *.
  intros i j a b Hij Ha Hb.
  destruct (decide (j < length (some_entry <$> P))) as [Hj|Hj].
  - rewrite lookup_app_l in Ha by lia. rewrite lookup_app_l in Hb by lia.
    rewrite list_lookup_fmap in Ha, Hb.
    destruct (P !! i) as [x|] eqn:Hx; [|done].
    destruct (P !! j) as [y|] eqn:Hy; [|done].
    simplify_eq/=.
    assert (Hsplit : P = take j P ++ y :: drop (S j) P).
    { by rewrite <- (take_drop_middle P j y) at 1. }
    rewrite Hsplit, fmap_app in Hsorted.
    apply StronglySorted_app_1_elem_of with (x1 := x.2) (x2 := y.2) in Hsorted.
    + done.
    + apply list_elem_of_fmap. exists x. split; [done|].
      apply list_elem_of_lookup. exists i. by rewrite lookup_take_lt by lia.
    + cbn. left.
  - rewrite lookup_app_r in Hb by lia.
    apply list_elem_of_lookup_2, nan_only_is_nan in Hb. rewrite Hb.
    by destruct a.2.
Qed.


Lemma is_argsort_stable_rankings :
  is_argsort ((non_nan rankings_means).*2) (argsort_stable ((non_nan rankings_means).*2)).
Proof.
  split.
  - apply (bool_decide_unpack _). vm_compute. exact I.
  - match goal with
    | |- Sorted Qle ?l => let l' := eval vm_compute in l in change l with l'
    end.
    repeat constructor; unfold Qle; cbn; lia.
Defined.

(** ** Loading *)

(** On header lines without an empty cell the columns are named by the
    cells, and a file without blank lines is read line by line. *)
Lemma imap_named (g : nat → string) (line : list string) :
  EmptyString ∉ line →
  imap (λ i name, if bool_decide (name = EmptyString) then g i else name) line = line.
Proof.
  revert g. induction line as [|name line IH]; intros g H; [done|].
  apply not_elem_of_cons in H as [Hname Hline]. cbn [imap].
  rewrite bool_decide_eq_false_2 by done. f_equal. exact (IH (g ∘ S) Hline).
Qed.

Lemma header_names_named (level : option nat) (line : list string) :
  EmptyString ∉ line → header_names level line = line.
Proof. apply imap_named. Qed.

Lemma not_blank_named (line : list string) :
  line ≠ [] → EmptyString ∉ line → is_blank_line line = false.
Proof.
  destruct line as [|field [|? ?]]; [done| |done].
  intros _ H. cbn. apply bool_decide_eq_false_2. intros ->. apply H. left.
Qed.

Lemma skip_blank_lines_cons (line : list string) (f : csv) :
  is_blank_line line = false → skip_blank_lines (line :: f) = line :: skip_blank_lines f.
Proof. intros H. unfold skip_blank_lines. cbn [List.filter]. by rewrite H. Qed.

(** Both [load_and_clean_data] functions drop the first data row exactly
    when its first cell carries the import marker. *)
Lemma read_csv_two_headers_ok (path : string) (st : Proc) (codes texts : list string)
    (body : csv) :
  disk st !! path = Some (codes :: texts :: body) →
  codes ≠ [] → EmptyString ∉ codes →
  length texts = length codes → is_blank_line texts = false →
  forallb (λ l, bool_decide (length l ≤ length codes)) (skip_blank_lines body) = true →
  read_csv_two_headers path st
  = (inr (mkDF codes (to_row codes <$> skip_blank_lines body), header_names (Some 1) texts),
     st).
Proof.
  intros Hfile Hne Hnamed Hlen Htexts Hwidth.
  unfold read_csv_two_headers, open_csv, mbind, M_bind. rewrite Hfile.
  rewrite skip_blank_lines_cons by by apply not_blank_named.
  rewrite skip_blank_lines_cons by done.
  rewrite bool_decide_eq_true_2 by done. rewrite Hwidth.
  by rewrite header_names_named.
Qed.


Lemma impact_load_drops_marked_row (path : string) (st : Proc) (c : string)
    (cs texts first : list string) (rest : csv) :
  disk st !! path = Some ((c :: cs) :: texts :: first :: rest) →
  EmptyString ∉ c :: cs →
  length texts = length (c :: cs) → is_blank_line texts = false →
  is_blank_line first = false →
  forallb (λ l, bool_decide (length l ≤ length (c :: cs)))
    (first :: skip_blank_lines rest) = true →
  AwarenessImpact.load_and_clean_data path st
  = (inr (mkDF (c :: cs)
            (to_row (c :: cs)
               <$> (if is_import_marker (cell_of (to_row (c :: cs) first) c)
                    then skip_blank_lines rest else first :: skip_blank_lines rest))), st).
Proof.
  intros Hfile Hnamed Hlen Htexts Hfirst Hwidth. unfold AwarenessImpact.load_and_clean_data.
  erewrite bind_ok; last first.
  { apply read_csv_two_headers_ok; [done..|]. by rewrite skip_blank_lines_cons. }
  rewrite skip_blank_lines_cons by done.
  unfold iloc_0_0, mbind, M_bind, mret, M_ret. cbn [rows columns fmap list_fmap].
  by destruct (is_import_marker _).
Qed.


(** C5 (the code departs from the claim).  On an export whose first data
    line is the metadata line, both [load_and_clean_data] functions drop
    that line and keep the one response, as the claim says;
    [analyze_irreplaceability.py] has no such check and keeps the metadata
    line as the first row of its table. *)
Theorem irreplaceability_keeps_metadata_row :
  (∃ df, returned (Irreplaceability.loaded (process_on_disk export_with_metadata)) = Some df
         ∧ series df "StartDate" = [Str (metadata_cell "startDate"); Str "2025-12-01"]
         ∧ is_import_marker (Str (metadata_cell "startDate")) = true)
  ∧ (∃ df, fst <$> returned (Survey.load_and_clean_data filepath
                              (process_on_disk export_with_metadata)) = Some df
           ∧ series df "StartDate" = [Str "2025-12-01"])
  ∧ (∃ df, returned (AwarenessImpact.load_and_clean_data filepath
                       (process_on_disk export_with_metadata)) = Some df
           ∧ series df "StartDate" = [Str "2025-12-01"]).
Proof.
  repeat split; eexists; (split; [vm_compute; reflexivity|]);
    repeat split; vm_compute; reflexivity.
Qed.

Lemma open_csv_missing (path : string) (st : Proc) :
  disk st !! path = None → open_csv path st = (inl (FileNotFoundError path), st).
Proof. intros H. unfold open_csv. by rewrite H. Qed.

Lemma read_csv_two_headers_missing (path : string) (st : Proc) :
  disk st !! path = None →
  read_csv_two_headers path st = (inl (FileNotFoundError path), st).
Proof. intros H. apply bind_raise. by apply open_csv_missing. Qed.

Lemma read_csv_missing (path : string) (st : Proc) :
  disk st !! path = None → read_csv path st = (inl (FileNotFoundError path), st).
Proof. intros H. apply bind_raise. by apply open_csv_missing. Qed.

Lemma survey_main_missing (parse_number : string → option Q)
    (argsort : list Q → list nat) (st : Proc) :
  disk st !! filepath = None →
  Survey.main parse_number argsort st = (inl (FileNotFoundError filepath), st).
Proof.
  intros H. do 2 apply bind_raise. by apply read_csv_two_headers_missing.
Qed.

Lemma impact_main_missing (st : Proc) :
  disk st !! filepath = None →
  AwarenessImpact.main st = (inl (FileNotFoundError filepath), st).
Proof.
  intros H. do 2 apply bind_raise. by apply read_csv_two_headers_missing.
Qed.

Lemma irreplaceability_main_missing (parse_number : string → option Q)
    (argsort : list Q → list nat) (st : Proc) :
  disk st !! filepath = None →
  Irreplaceability.main parse_number argsort st
  = (inl (SystemExit 1),
     mkProc (disk st) (frame st) (written st)
       (printed st ++ ["Error: File not found at " +:+ filepath])).
Proof.
  intros H. do 2 apply bind_raise.
  unfold Irreplaceability.load, try_except_FileNotFound, Irreplaceability.file_path.
  by rewrite (read_csv_missing _ _ H).
Qed.

(** C6.  When the input file does not exist, each of the three scripts ends
    with a non-zero exit status and an error report, having written no
    artifact and loaded no table: [analyze_survey.py] and
    [analyze_awareness_impact.py] die on the uncaught FileNotFoundError,
    whose traceback the interpreter prints, with the process state untouched;
    [analyze_irreplaceability.py] catches it, prints its own error line and
    exits with status 1. *)
Theorem missing_input_file_is_fatal (parse_number : string → option Q)
    (argsort : list Q → list nat) (st : Proc) :
  disk st !! filepath = None →
  let survey := run_script (Survey.main parse_number argsort) st in
  let impact := run_script AwarenessImpact.main st in
  let irreplaceability := run_script (Irreplaceability.main parse_number argsort) st in
  (exit_code survey = 1%Z ∧ traceback survey = Some (FileNotFoundError filepath)
     ∧ final survey = st)
  ∧ (exit_code impact = 1%Z ∧ traceback impact = Some (FileNotFoundError filepath)
     ∧ final impact = st)
  ∧ (exit_code irreplaceability = 1%Z ∧ traceback irreplaceability = None
     ∧ printed (final irreplaceability)
       = printed st ++ ["Error: File not found at " +:+ filepath]
     ∧ written (final irreplaceability) = written st
     ∧ frame (final irreplaceability) = frame st).
Proof.
  intros Hmiss. unfold run_script.
  rewrite (survey_main_missing _ _ _ Hmiss), (impact_main_missing _ Hmiss),
    (irreplaceability_main_missing _ _ _ Hmiss).
  by repeat split.
Qed.

Lemma missing_input_file_is_fatal_witness :
  disk (process_with (mkDF [] [])) !! filepath = None
  ∧ exit_code (run_script (Survey.main parse_decimal argsort_stable)
                 (process_with (mkDF [] []))) = 1%Z
  ∧ written (final (run_script (Irreplaceability.main parse_decimal argsort_stable)
                      (process_with (mkDF [] [])))) = [].
Proof.
  assert (H : disk (process_with (mkDF [] [])) !! filepath = None) by reflexivity.
  split; [exact H|].
  pose proof (missing_input_file_is_fatal parse_decimal argsort_stable
                (process_with (mkDF [] [])) H) as ((Hcode & _) & _ & (_ & _ & _ & Hw & _)).
  split; [exact Hcode|exact Hw].
Defined.

(** ** Ordinal coding *)





(** ** Numeric coercion *)

Lemma to_numeric_idempotent (parse_number : string → option Q) (c : cell) :
  to_numeric parse_number (to_numeric parse_number c) = to_numeric parse_number c.
Proof. destruct c as [|s|q]; cbn; [done| |done]. by destruct (parse_number s). Qed.


Lemma foldl_setitem_rows (parse_number : string → option Q) (cs : list string)
    (df : DataFrame) :
  rows (foldl (λ d col, setitem col (λ r, to_numeric parse_number (cell_of r col)) d) df cs)
  = coerce_row parse_number cs <$> rows df.
Proof.
  revert df. induction cs as [|c cs IH]; intros df.
  - cbn. by rewrite list_fmap_id.
  - cbn [foldl]. rewrite IH. unfold setitem at 1. cbn [rows].
    change (List.map ?f ?l) with (f <$> l). by rewrite <- list_fmap_compose.
Qed.

Lemma cell_of_coerce_row_other (parse_number : string → option Q) (cs : list string)
    (r : Row) (c : string) :
  c ∉ cs → cell_of (coerce_row parse_number cs r) c = cell_of r c.
Proof.
  revert r. induction cs as [|c0 cs IH]; intros r Hc; [done|].
  apply not_elem_of_cons in Hc as [Hne Hc]. unfold coerce_row in *. cbn [foldl].
  rewrite IH by done. by apply cell_of_insert_ne.
Qed.

Lemma cell_of_coerce_row (parse_number : string → option Q) (cs : list string)
    (r : Row) (c : string) :
  c ∈ cs → cell_of (coerce_row parse_number cs r) c = to_numeric parse_number (cell_of r c).
Proof.
  revert r. induction cs as [|c0 cs IH]; intros r Hc; [by apply elem_of_nil in Hc|].
  unfold coerce_row in *. cbn [foldl].
  destruct (decide (c ∈ cs)) as [Hin|Hout].
  - rewrite IH by done. destruct (decide (c0 = c)) as [->|Hne].
    + by rewrite cell_of_insert_eq, to_numeric_idempotent.
    + by rewrite cell_of_insert_ne.
  - apply elem_of_cons in Hc as [->|Hc]; [|done].
    fold (coerce_row parse_number cs (<[c0 := to_numeric parse_number (cell_of r c0)]> r)).
    rewrite cell_of_coerce_row_other by done. apply cell_of_insert_eq.
Qed.

Lemma coerce_columns_ok (parse_number : string → option Q) (cs : list string)
    (st : Proc) :
  Forall (λ c, has_column (frame st) c = true) cs →
  Survey.coerce_columns parse_number cs st
  = (inr (),
     mkProc (disk st)
       (foldl (λ d col, setitem col (λ r, to_numeric parse_number (cell_of r col)) d)
          (frame st) cs)
       (written st) (printed st)).
Proof.
  revert st. induction cs as [|c cs IH]; intros st Hcols.
  - by destruct st.
  - apply Forall_cons in Hcols as [Hc Hcs]. cbn [Survey.coerce_columns foldl].
    unfold get_frame, require_column, set_frame, mbind, M_bind, mret, M_ret.
    rewrite Hc. rewrite IH; [done|]. cbn [frame].
    eapply Forall_impl; [exact Hcs|]. intros c'. apply has_column_setitem.
Qed.

Lemma series_after_coercion (parse_number : string → option Q) (cs : list string)
    (df : DataFrame) (c : string) :
  c ∈ cs →
  series (foldl (λ d col, setitem col (λ r, to_numeric parse_number (cell_of r col)) d)
            df cs) c
  = to_numeric parse_number <$> series df c.
Proof.
  intros Hc. unfold series. rewrite foldl_setitem_rows.
  change (List.map ?f ?l) with (f <$> l). rewrite <- !list_fmap_compose.
  apply list_fmap_ext. intros i r _. cbn. by apply cell_of_coerce_row.
Qed.



(** ** What the analyses do to the caller's table *)

Lemma area_2_frame (st : Proc) :
  has_column (frame st) "Q55" = true → has_column (frame st) "Q44" = true →
  frame (Survey.area_2_roi_pressure st).2 = coded (frame st).
Proof.
  intros H55 H44.
  unfold Survey.area_2_roi_pressure, require_columns, require_column, get_frame,
    set_frame, pct, write_artifact, raise, mbind, M_bind, mret, M_ret, coded.
  cbn [frame]. rewrite H55, H44. cbn [frame].
  repeat (case_match; simplify_eq/=; try done).
Qed.

(** [area_1_enrollment_threat] works on copies, and [area_2_roi_pressure]
    adds its two columns and leaves every other column as it was. *)
Lemma area_2_keeps_existing_columns (st : Proc) (c : string) :
  has_column (frame st) "Q55" = true → has_column (frame st) "Q44" = true →
  c ≠ "ROI_Belief_Raw" → c ≠ "ROI_Belief_Score" →
  series (frame (Survey.area_2_roi_pressure st).2) c = series (frame st) c.
Proof.
  intros H55 H44 Hraw Hscore. rewrite (area_2_frame _ H55 H44).
  unfold series, coded, setitem. cbn [rows].
  change (List.map ?f ?l) with (f <$> l). rewrite <- !list_fmap_compose.
  apply list_fmap_ext. intros i r _. cbn.
  rewrite cell_of_insert_ne by done. by rewrite cell_of_insert_ne.
Qed.

(** C9 (the code departs from the claim).  [area_3_program_value] assigns
    the coerced values back to the ranking columns of the caller's table:
    on the [rankings] table the existing column Q24_3 holds the texts 3 and
    three before the call and the number 3 and NaN after it, the column
    index being the same.  [analyze_irreplaceability.py] coerces a copy and
    leaves its loaded table as it was. *)
Theorem program_value_overwrites_ranking_columns :
  series rankings "Q24_3" = [Str "3"; Str "three"]
  ∧ series (frame (Survey.area_3_program_value parse_decimal argsort_stable
                     (process_with rankings)).2) "Q24_3"
    = [Num 3; NaN]
  ∧ columns (frame (Survey.area_3_program_value parse_decimal argsort_stable
                      (process_with rankings)).2)
    = columns rankings
  ∧ (∃ df, returned (Irreplaceability.loaded (process_on_disk export_with_metadata)) = Some df
           ∧ frame (Irreplaceability.main parse_decimal argsort_stable
                      (process_on_disk export_with_metadata)).2 = df
           ∧ series df "Q24_3" = [Str (metadata_cell "QID24_3"); Str "3"]).
Proof.
  split; [vm_compute; reflexivity|]. split; [vm_compute; reflexivity|].
  split; [vm_compute; reflexivity|].
  eexists. split; [vm_compute; reflexivity|]. split; vm_compute; reflexivity.
Qed.

(** ** The combined ROI belief *)

(** C10.  On every table that has the columns Q55 and Q44, the ROI_Belief_Raw
    cell that [area_2_roi_pressure] gives a row is the row's Q55 answer when
    that is not blank and its Q44 answer otherwise; it is blank exactly when
    both are. *)
Theorem roi_belief_raw_prefers_Q55 (st : Proc) :
  has_column (frame st) "Q55" = true → has_column (frame st) "Q44" = true →
  let df' := frame (Survey.area_2_roi_pressure st).2 in
  len df' = len (frame st)
  ∧ ∀ (i : nat) (r : Row), rows (frame st) !! i = Some r →
      ∃ r' : Row, rows df' !! i = Some r'
        ∧ cell_of r' "ROI_Belief_Raw"
          = (if notna (cell_of r "Q55") then cell_of r "Q55" else cell_of r "Q44")
        ∧ (cell_of r' "ROI_Belief_Raw" = NaN
           ↔ cell_of r "Q55" = NaN ∧ cell_of r "Q44" = NaN).
Proof.
  intros H55 H44 df'. subst df'. rewrite (area_2_frame _ H55 H44).
  unfold coded, setitem, len. cbn [rows]. split; [by rewrite !length_map|].
  intros i r Hr. eexists. split.
  { change (List.map ?f ?l) with (f <$> l). rewrite !list_lookup_fmap, Hr. reflexivity. }
  rewrite cell_of_insert_ne by done. rewrite cell_of_insert_eq.
  unfold Survey.ROI_Belief_Raw, fillna. split; [done|].
  destruct (cell_of r "Q55"); cbn; intuition congruence.
Qed.

Lemma roi_belief_raw_prefers_Q55_witness :
  has_column (frame (process_with roi_answers)) "Q55" = true
  ∧ has_column (frame (process_with roi_answers)) "Q44" = true
  ∧ len (frame (Survey.area_2_roi_pressure (process_with roi_answers)).2)
    = len (frame (process_with roi_answers)).
Proof.
  assert (H55 : has_column (frame (process_with roi_answers)) "Q55" = true)
    by reflexivity.
  assert (H44 : has_column (frame (process_with roi_answers)) "Q44" = true)
    by reflexivity.
  split; [exact H55|]. split; [exact H44|].
  exact (proj1 (roi_belief_raw_prefers_Q55 (process_with roi_answers) H55 H44)).
Defined.

Example roi_belief_raw_on_roi_answers :
  series (frame (Survey.area_2_roi_pressure (process_with roi_answers)).2) "ROI_Belief_Raw"
    = [Str "Probably yes"; Str "Probably not"; NaN]
  ∧ series (frame (Survey.area_2_roi_pressure (process_with roi_answers)).2)
      "ROI_Belief_Score"
    = [Num 4; Num 2; NaN]
  ∧ ∃ m, returned (Survey.area_2_roi_pressure (process_with roi_answers)) = Some m
         ∧ Survey.Num_Reluctant_Students m = 1
         ∧ (Survey.Pct_Reluctant_Students m == 50)%Q.
Proof.
  split; [vm_compute; reflexivity|]. split; [vm_compute; reflexivity|].
  eexists. split; [vm_compute; reflexivity|]. split; vm_compute; reflexivity.
Qed.

(** ** Complete runs *)

Example survey_run_on_complete_export :
  let out := run_script (Survey.main parse_decimal argsort_stable)
               (process_on_disk export_complete) in
  exit_code out = 0%Z
  ∧ written (final out)
    = ["enrollment_threat.png"; "roi_vs_pressure.png"; "program_value.png";
       "cpa_pathway_summary.csv"]
  ∧ len (frame (final out)) = 2.
Proof. vm_compute. repeat split; reflexivity. Qed.

Example impact_run_on_complete_export :
  let out := run_script AwarenessImpact.main (process_on_disk export_complete) in
  exit_code out = 0%Z
  ∧ written (final out)
    = ["awareness_gap.png"; "incentive_shift_pie.png"; "awareness_impact_summary.txt"].
Proof. vm_compute. repeat split; reflexivity. Qed.

Example irreplaceability_run_on_complete_export :
  let out := run_script (Irreplaceability.main parse_decimal argsort_stable)
               (process_on_disk export_complete) in
  exit_code out = 0%Z
  ∧ written (final out) = ["insights.txt"; "program_irreplaceability.png"]
  ∧ len (frame (final out)) = 3.
Proof. vm_compute. repeat split; reflexivity. Qed.

(** ** The ranking of the means *)

Lemma in_order_refl (a : option Q) : in_order a a.
Proof. destruct a; cbn; [apply Qle_refl|done]. Qed.

Lemma labels_cover_cols (c : string) :
  c ∈ Survey.cols → ∃ label, Survey.labels !! c = Some label.
Proof.
  unfold Survey.cols. rewrite !elem_of_cons, elem_of_nil.
  intros [->|[->|[->|[->|[->|[->|[]]]]]]]; eexists; vm_compute; reflexivity.
Qed.






(** On the means of [rankings], where only the first two are equal, the
    network and the sort by insertion return the same order. *)
Example argsorts_agree_on_rankings :
  argsort_bitonic ((non_nan rankings_means).*2)
  = argsort_stable ((non_nan rankings_means).*2).
Proof. vm_compute. reflexivity. Qed.



(** * Further properties of the scripts *)

(** ** Loading, continued *)

Lemma impact_load_of_survey_load (path : string) (st : Proc) :
  AwarenessImpact.load_and_clean_data path st
  = match Survey.load_and_clean_data path st with
    | (inr (df, _), st') => (inr df, st')
    | (inl e, st') => (inl e, st')
    end.
Proof.
  unfold AwarenessImpact.load_and_clean_data, Survey.load_and_clean_data,
    read_csv_two_headers, open_csv, iloc_0_0, raise, mbind, M_bind, mret, M_ret.
  repeat (case_match; simplify_eq/=; try done).
Qed.

(** X1.  The two [load_and_clean_data] functions are the same loader: on
    every file system and path they fail with the same exception or return
    the same table, and neither changes the state of the process. *)
Theorem both_loaders_return_the_same_table (path : string) (st : Proc) :
  AwarenessImpact.load_and_clean_data path st
  = match Survey.load_and_clean_data path st with
    | (inr (df, _), st') => (inr df, st')
    | (inl e, st') => (inl e, st')
    end
  ∧ (Survey.load_and_clean_data path st).2 = st
  ∧ (AwarenessImpact.load_and_clean_data path st).2 = st.
Proof.
  split; [apply impact_load_of_survey_load|].
  unfold AwarenessImpact.load_and_clean_data, Survey.load_and_clean_data,
    read_csv_two_headers, open_csv, iloc_0_0, raise, mbind, M_bind, mret, M_ret.
  repeat (case_match; simplify_eq/=; try done).
Qed.

Lemma skip_blank_lines_blank (blanks : csv) :
  Forall (λ line, is_blank_line line = true) blanks → skip_blank_lines blanks = [].
Proof.
  induction 1 as [|line blanks Hline _ IH]; [done|].
  unfold skip_blank_lines in *. cbn [List.filter]. by rewrite Hline.
Qed.


(** X2.  An export that holds its two header lines, of the same length, and
    after them nothing but blank lines makes [df.iloc[0, 0]] raise IndexError
    in [load_and_clean_data], and both scripts that use it end on that
    exception with nothing written. *)
Theorem load_without_data_rows_raises_IndexError (parse_number : string → option Q)
    (argsort : list Q → list nat) (st : Proc) (codes texts : list string) (blanks : csv) :
  disk st !! filepath = Some (codes :: texts :: blanks) →
  is_blank_line codes = false → is_blank_line texts = false →
  length texts = length codes →
  Forall (λ line, is_blank_line line = true) blanks →
  Survey.load_and_clean_data filepath st = (inl IndexError, st)
  ∧ AwarenessImpact.load_and_clean_data filepath st = (inl IndexError, st)
  ∧ (let out := run_script (Survey.main parse_number argsort) st in
     exit_code out = 1%Z ∧ traceback out = Some IndexError ∧ final out = st)
  ∧ (let out := run_script AwarenessImpact.main st in
     exit_code out = 1%Z ∧ traceback out = Some IndexError ∧ final out = st).
Proof.
  intros Hfile Hcodes Htexts Hlen Hblanks.
  assert (Hread : read_csv_two_headers filepath st
                  = (inr (mkDF (header_names (Some 0) codes) [], header_names (Some 1) texts),
                     st)).
  { unfold read_csv_two_headers, open_csv, mbind, M_bind. rewrite Hfile.
    rewrite !skip_blank_lines_cons by done.
    rewrite (skip_blank_lines_blank _ Hblanks).
    by rewrite bool_decide_eq_true_2 by done. }
  assert (Hs : Survey.load_and_clean_data filepath st = (inl IndexError, st)).
  { unfold Survey.load_and_clean_data. by rewrite (bind_ok _ _ _ _ _ Hread). }
  assert (Ha : AwarenessImpact.load_and_clean_data filepath st = (inl IndexError, st)).
  { unfold AwarenessImpact.load_and_clean_data. by rewrite (bind_ok _ _ _ _ _ Hread). }
  split; [done|]. split; [done|].
  unfold run_script, Survey.main, AwarenessImpact.main.
  rewrite (bind_raise _ _ _ _ _ Hs), (bind_raise _ _ _ _ _ Ha). done.
Qed.

Lemma load_without_data_rows_raises_IndexError_witness :
  disk (process_on_disk export_headers_only) !! filepath
    = Some [survey_columns;
            ["Start Date"; "Level"; "Aware"; "Likelihood"; "ROI"; "ROI"; "Employer";
             "Desire"; "Aware"; "Rank 1"; "Rank 2"; "Rank 3"; "Rank 4"; "Rank 5";
             "Rank 6"];
            []; [EmptyString]]
  ∧ exit_code (run_script (Survey.main parse_decimal argsort_stable)
                 (process_on_disk export_headers_only)) = 1%Z
  ∧ traceback (run_script AwarenessImpact.main (process_on_disk export_headers_only))
    = Some IndexError.
Proof.
  assert (H : disk (process_on_disk export_headers_only) !! filepath
              = Some [survey_columns;
                      ["Start Date"; "Level"; "Aware"; "Likelihood"; "ROI"; "ROI";
                       "Employer"; "Desire"; "Aware"; "Rank 1"; "Rank 2"; "Rank 3";
                       "Rank 4"; "Rank 5"; "Rank 6"];
                      []; [EmptyString]])
    by (vm_compute; reflexivity).
  split; [exact H|].
  pose proof (load_without_data_rows_raises_IndexError parse_decimal argsort_stable _ _ _ _ H
                eq_refl eq_refl eq_refl
                ltac:(repeat constructor))
    as (_ & _ & (Hcode & _) & (_ & Htrace & _)).
  split; [exact Hcode|exact Htrace].
Defined.

(** X3.  When the field codes are distinct, the two header lines have the
    same length and no header cell is empty (pandas names an empty header
    cell itself), the question map that [load_and_clean_data] returns sends
    each field code to the question text under it, and the table's columns
    are the field codes. *)
Theorem question_map_lookup (path : string) (st : Proc) (codes texts : list string)
    (body : csv) (df : DataFrame) (question_map : gmap string string) (i : nat)
    (code text : string) :
  disk st !! path = Some (codes :: texts :: body) →
  NoDup codes → length codes = length texts →
  EmptyString ∉ codes → EmptyString ∉ texts →
  returned (Survey.load_and_clean_data path st) = Some (df, question_map) →
  codes !! i = Some code → texts !! i = Some text →
  question_map !! code = Some text ∧ columns df = codes.
Proof.
  intros Hfile Hnodup Hlen Hcodes Htexts Hret Hc Ht.
  assert (Hq : (list_to_map (reverse (zip codes texts)) : gmap string string) !! code
               = Some text).
  { apply elem_of_list_to_map_1.
    - rewrite fmap_reverse, fst_zip by lia. by rewrite reverse_Permutation.
    - apply elem_of_reverse. apply list_elem_of_lookup. exists i.
      by apply lookup_zip_Some. }
  unfold returned, Survey.load_and_clean_data, read_csv_two_headers, open_csv, iloc_0_0,
    raise, mbind, M_bind, mret, M_ret in Hret. rewrite Hfile in Hret.
  rewrite skip_blank_lines_cons in Hret
    by (apply not_blank_named; [by destruct codes|done]).
  rewrite skip_blank_lines_cons in Hret
    by (apply not_blank_named; [by destruct texts|done]).
  rewrite !header_names_named in Hret by done.
  repeat (case_match; simplify_eq/=; try done).
Qed.

Lemma question_map_lookup_witness :
  ∃ (df : DataFrame) (question_map : gmap string string),
    returned (Survey.load_and_clean_data filepath (process_on_disk export_with_metadata))
      = Some (df, question_map)
    ∧ question_map !! "Q27" = Some "Level".
Proof.
  do 2 eexists. split; [vm_compute; reflexivity|].
  refine (proj1 (question_map_lookup filepath (process_on_disk export_with_metadata)
                   _ _ _ _ _ 1 "Q27" "Level" _ _ _ _ _ _ _ _)).
  - vm_compute. reflexivity.
  - apply (bool_decide_unpack _). vm_compute. exact I.
  - reflexivity.
  - apply (bool_decide_unpack _). vm_compute. exact I.
  - apply (bool_decide_unpack _). vm_compute. exact I.
  - vm_compute. reflexivity.
  - reflexivity.
  - reflexivity.
Defined.



(** ** Percentages, continued *)

Lemma pct_or_zero_value (num den : nat) :
  (pct_or_zero num (S den) == (100 * Z.of_nat num) # Pos.of_succ_nat den)%Q.
Proof.
  unfold pct_or_zero. rewrite bool_decide_eq_true_2 by lia.
  unfold Qdiv, Qinv, inject_Z.
  change (Z.of_nat (S den)) with (Z.pos (Pos.of_succ_nat den)).
  unfold Qeq, Qmult. cbn [Qnum Qden]. rewrite ?Pos.mul_1_l, ?Pos.mul_1_r. lia.
Qed.

Lemma pct_or_zero_nonneg (num den : nat) : (0 <= pct_or_zero num den)%Q.
Proof.
  destruct den as [|den]; [done|].
  rewrite pct_or_zero_value. unfold Qle. cbn [Qnum Qden]. lia.
Qed.

Lemma pct_or_zero_le_100 (num den : nat) : num ≤ den → (pct_or_zero num den <= 100)%Q.
Proof.
  intros H. destruct den as [|den]; [done|].
  rewrite pct_or_zero_value. unfold Qle. cbn [Qnum Qden].
  rewrite !Zpos_P_of_succ_nat. lia.
Qed.

Lemma pct_or_zero_full (num den : nat) :
  0 < den → ((pct_or_zero num den == 100)%Q ↔ num = den).
Proof.
  intros H. destruct den as [|den]; [lia|].
  rewrite pct_or_zero_value. unfold Qeq. cbn [Qnum Qden].
  rewrite !Zpos_P_of_succ_nat. lia.
Qed.

(** The same count over a larger subset is a smaller share. *)
Lemma pct_or_zero_larger_den (num d1 d2 : nat) :
  num ≤ d1 → d1 ≤ d2 → (pct_or_zero num d2 <= pct_or_zero num d1)%Q.
Proof.
  intros Hn Hd. destruct d1 as [|d1].
  { assert (num = 0) as -> by lia. destruct d2 as [|d2]; [done|].
    rewrite pct_or_zero_value. unfold pct_or_zero at 1. cbn. done. }
  destruct d2 as [|d2]; [lia|].
  rewrite !pct_or_zero_value. unfold Qle. cbn [Qnum Qden].
  rewrite !Zpos_P_of_succ_nat. nia.
Qed.

Lemma pct_or_zero_larger_num (n1 n2 den : nat) :
  n1 ≤ n2 → (pct_or_zero n1 den <= pct_or_zero n2 den)%Q.
Proof.
  intros Hn. destruct den as [|den]; [done|].
  rewrite !pct_or_zero_value. unfold Qle. cbn [Qnum Qden].
  rewrite !Zpos_P_of_succ_nat. nia.
Qed.

Lemma length_filter_le {A : Type} (p : A → bool) (l : list A) :
  length (List.filter p l) ≤ length l.
Proof. induction l as [|x l IH]; cbn; [done|]. destruct (p x); cbn; lia. Qed.

Lemma filter_filter_andb {A : Type} (p q : A → bool) (l : list A) :
  List.filter p (List.filter q l) = List.filter (λ x, q x && p x) l.
Proof.
  induction l as [|x l IH]; cbn; [done|].
  destruct (q x); cbn; [destruct (p x); by rewrite IH|done].
Qed.

Lemma length_filter_map {A B : Type} (p : B → bool) (f : A → B) (l : list A) :
  length (List.filter p (List.map f l)) = length (List.filter (λ x, p (f x)) l).
Proof. induction l as [|x l IH]; cbn; [done|]. destruct (p (f x)); cbn; by rewrite IH. Qed.

Lemma length_filter_ext {A : Type} (p q : A → bool) (l : list A) :
  (∀ x, p x = q x) → length (List.filter p l) = length (List.filter q l).
Proof.
  intros H. induction l as [|x l IH]; cbn; [done|].
  rewrite H. destruct (q x); cbn; by rewrite IH.
Qed.

Lemma length_filter_implies {A : Type} (p q : A → bool) (l : list A) :
  (∀ x, p x = true → q x = true) → length (List.filter p l) ≤ length (List.filter q l).
Proof.
  intros H. induction l as [|x l IH]; cbn; [done|].
  destruct (p x) eqn:Hp; [rewrite (H _ Hp); cbn; lia|]. destruct (q x); cbn; lia.
Qed.

Lemma length_filter_orb {A : Type} (p q : A → bool) (l : list A) :
  (∀ x, p x = true → q x = false) →
  length (List.filter (λ x, p x || q x) l)
  = length (List.filter p l) + length (List.filter q l).
Proof.
  intros H. induction l as [|x l IH]; cbn; [done|].
  destruct (p x) eqn:Hp; cbn.
  - rewrite (H _ Hp). cbn. by rewrite IH.
  - destruct (q x); cbn; rewrite IH; lia.
Qed.

Lemma count_label_series (df : DataFrame) (c label : string) :
  count_label (series df c) label
  = length (List.filter (λ r, eq_str (cell_of r c) label) (rows df)).
Proof. unfold count_label, series. apply length_filter_map. Qed.

(** A Q35 code is at most 2 exactly for the two unlikely labels. *)
Lemma q35_code_at_most_2 (c : cell) :
  le_num (map_dict Survey.q35_map c) 2
  = eq_str c "Extremely unlikely" || eq_str c "Somewhat unlikely".
Proof.
  destruct c as [|s|q]; [done| |done]. unfold map_dict, Survey.q35_map, eq_str.
  cbn [list_to_map foldr uncurry fst snd].
  rewrite !lookup_insert, lookup_empty.
  repeat case_decide; simplify_eq; try done.
  all: rewrite ?bool_decide_eq_true_2, ?bool_decide_eq_false_2 by done; done.
Qed.

Lemma area_1_returned (st : Proc) (m : Survey.Metrics1) :
  returned (Survey.area_1_enrollment_threat st) = Some m →
  m = Survey.mkMetrics1
        (len (Survey.grad_students (frame st)))
        (pct_or_zero (len (Survey.unaware_grad (frame st)))
           (len (Survey.grad_students (frame st))))
        (pct_or_zero (Survey.potential_loss_count (frame st))
           (len (Survey.unaware_grad (frame st))))
        (pct_or_zero (Survey.potential_loss_count (frame st))
           (len (Survey.grad_students (frame st)))).
Proof.
  intros H.
  unfold returned, Survey.area_1_enrollment_threat, require_column, get_frame,
    write_artifact, raise, mbind, M_bind, mret, M_ret in H.
  repeat (case_match; simplify_eq/=; try done).
Qed.

Lemma area_2_returned (st : Proc) (m : Survey.Metrics2) :
  returned (Survey.area_2_roi_pressure st) = Some m →
  len (Survey.roi_df (coded (frame st))) ≠ 0
  ∧ m = Survey.mkMetrics2 (len (Survey.reluctant (coded (frame st))))
          (pct_or_zero (len (Survey.reluctant (coded (frame st))))
             (len (Survey.roi_df (coded (frame st))))).
Proof.
  intros H.
  unfold returned, Survey.area_2_roi_pressure, require_columns, require_column, get_frame,
    set_frame, pct, write_artifact, raise, mbind, M_bind, mret, M_ret in H.
  repeat (case_match; simplify_eq/=; try done).
  match goal with H : bool_decide (_ = 0) = false |- _ =>
    apply bool_decide_eq_false in H; rename H into Hne end.
  unfold coded. split; [done|].
  unfold pct_or_zero. rewrite bool_decide_eq_true_2; [done|lia].
Qed.

Lemma awareness_gap_returned (df : DataFrame) (st : Proc) (g : AwarenessImpact.GapMetrics) :
  returned (AwarenessImpact.analyze_awareness_gap df st) = Some g →
  g = AwarenessImpact.mkGapMetrics
        (pct_or_zero (count_label (series (AwarenessImpact.grad_df df) "Q31") "No")
           (len (AwarenessImpact.grad_df df)))
        (pct_or_zero (count_label (series (AwarenessImpact.undergrad_df df) "Q53") "No")
           (len (AwarenessImpact.undergrad_df df))).
Proof.
  intros H.
  unfold returned, AwarenessImpact.analyze_awareness_gap, require_columns, require_column,
    write_artifact, raise, mbind, M_bind, mret, M_ret in H.
  repeat (case_match; simplify_eq/=; try done).
Qed.

Lemma incentive_shift_returned (df : DataFrame) (st : Proc)
    (i : AwarenessImpact.IncentiveMetrics) :
  returned (AwarenessImpact.analyze_incentive_shift df st) = Some i →
  i = AwarenessImpact.mkIncentiveMetrics
        (pct_or_zero (AwarenessImpact.unlikely_count df)
           (len (AwarenessImpact.unaware_grads df))).
Proof.
  intros H.
  unfold returned, AwarenessImpact.analyze_incentive_shift, require_columns, require_column,
    write_artifact, raise, mbind, M_bind, mret, M_ret in H.
  repeat (case_match; simplify_eq/=; try done).
Qed.

Lemma len_unaware_grad (df : DataFrame) :
  len (Survey.unaware_grad df)
  = length (List.filter (λ r, eq_str (cell_of r "Q27") "Graduate"
                              && eq_str (cell_of r "Q31") "No") (rows df)).
Proof.
  unfold len, Survey.unaware_grad, Survey.grad_students, setitem, select. cbn [rows].
  by rewrite length_map, filter_filter_andb.
Qed.

Lemma unaware_count_same (df : DataFrame) :
  count_label (series (AwarenessImpact.grad_df df) "Q31") "No"
  = len (Survey.unaware_grad df).
Proof.
  rewrite count_label_series, len_unaware_grad.
  unfold AwarenessImpact.grad_df, select. cbn [rows]. rewrite filter_filter_andb.
  apply length_filter_ext. intros r.
  destruct (cell_of r "Q31"); cbn; by rewrite ?andb_false_r, ?andb_true_r.
Qed.

Lemma potential_loss_count_filter (df : DataFrame) :
  Survey.potential_loss_count df
  = length (List.filter
              (λ r, eq_str (cell_of r "Q27") "Graduate" && eq_str (cell_of r "Q31") "No"
                    && (eq_str (cell_of r "Q35") "Extremely unlikely"
                        || eq_str (cell_of r "Q35") "Somewhat unlikely")) (rows df)).
Proof.
  unfold Survey.potential_loss_count, len, Survey.unaware_grad, Survey.grad_students,
    setitem, select. cbn [rows].
  rewrite length_filter_map, !filter_filter_andb. apply length_filter_ext. intros r.
  rewrite cell_of_insert_eq. rewrite q35_code_at_most_2. apply andb_assoc.
Qed.

(** ** Ordinal coding in the two area functions *)






Lemma two_unlikely_labels_disjoint (r : Row) :
  eq_str (cell_of r "Q35") "Extremely unlikely" = true →
  eq_str (cell_of r "Q35") "Somewhat unlikely" = false.
Proof.
  unfold eq_str. destruct (cell_of r "Q35"); [done| |done].
  intros ->%bool_decide_eq_true. done.
Qed.

Lemma unlikely_count_filter (df : DataFrame) :
  AwarenessImpact.unlikely_count df
  = length (List.filter
              (λ r, eq_str (cell_of r "Q27") "Graduate" && eq_str (cell_of r "Q31") "No"
                    && (eq_str (cell_of r "Q35") "Extremely unlikely"
                        || eq_str (cell_of r "Q35") "Somewhat unlikely")) (rows df)).
Proof.
  unfold AwarenessImpact.unlikely_count. rewrite !count_label_series.
  rewrite <- length_filter_orb by apply two_unlikely_labels_disjoint.
  unfold AwarenessImpact.unaware_grads, select. cbn [rows]. rewrite filter_filter_andb.
  apply length_filter_ext. intros r.
  destruct (cell_of r "Q35"); cbn; by rewrite ?andb_false_r, ?andb_true_r.
Qed.

(** X5.  On one table, [area_1_enrollment_threat] and [analyze_awareness_gap]
    count the same unaware graduates; the first divides by all graduates,
    the second by those who answered Q31, so its percentage is never the
    smaller one. *)
Theorem survey_unaware_pct_at_most_impact_pct (st st' : Proc) (m : Survey.Metrics1)
    (g : AwarenessImpact.GapMetrics) :
  returned (Survey.area_1_enrollment_threat st) = Some m →
  returned (AwarenessImpact.analyze_awareness_gap (frame st) st') = Some g →
  count_label (series (AwarenessImpact.grad_df (frame st)) "Q31") "No"
    = len (Survey.unaware_grad (frame st))
  ∧ len (AwarenessImpact.grad_df (frame st)) ≤ Survey.Total_Grad_Students m
  ∧ (Survey.Pct_Unaware m <= AwarenessImpact.grad_unaware_pct g)%Q.
Proof.
  intros ->%area_1_returned ->%awareness_gap_returned.
  cbn [Survey.Pct_Unaware Survey.Total_Grad_Students AwarenessImpact.grad_unaware_pct].
  assert (Hden : len (AwarenessImpact.grad_df (frame st))
                 ≤ len (Survey.grad_students (frame st))).
  { unfold len, AwarenessImpact.grad_df, Survey.grad_students, select. cbn [rows].
    apply length_filter_implies. by intros r [? _]%andb_true_iff. }
  split; [apply unaware_count_same|]. split; [done|].
  rewrite unaware_count_same. apply pct_or_zero_larger_den; [|done].
  rewrite <- unaware_count_same, count_label_series. apply length_filter_le.
Qed.

Lemma survey_unaware_pct_at_most_impact_pct_witness :
  ∃ (m : Survey.Metrics1) (g : AwarenessImpact.GapMetrics),
    returned (Survey.area_1_enrollment_threat (process_with blank_awareness)) = Some m
    ∧ returned (AwarenessImpact.analyze_awareness_gap
                  (frame (process_with blank_awareness)) (process_with blank_awareness))
      = Some g
    ∧ (Survey.Pct_Unaware m <= AwarenessImpact.grad_unaware_pct g)%Q.
Proof.
  do 2 eexists. split; [vm_compute; reflexivity|]. split; [vm_compute; reflexivity|].
  refine (proj2 (proj2 (survey_unaware_pct_at_most_impact_pct
                          (process_with blank_awareness) (process_with blank_awareness)
                          _ _ _ _))); vm_compute; reflexivity.
Defined.

(** X6.  On one table, the count of potential losses in
    [area_1_enrollment_threat] (Q35 code at most 2) is the count of the two
    unlikely labels in [analyze_incentive_shift]; the first divides by all
    unaware graduates, the second by those who answered Q35, so the regret
    percentage is never the smaller one. *)
Theorem survey_loss_pct_at_most_regret_pct (st st' : Proc) (m : Survey.Metrics1)
    (i : AwarenessImpact.IncentiveMetrics) :
  returned (Survey.area_1_enrollment_threat st) = Some m →
  returned (AwarenessImpact.analyze_incentive_shift (frame st) st') = Some i →
  AwarenessImpact.unlikely_count (frame st) = Survey.potential_loss_count (frame st)
  ∧ len (AwarenessImpact.unaware_grads (frame st)) ≤ len (Survey.unaware_grad (frame st))
  ∧ (Survey.Pct_Potential_Loss_of_Unaware m <= AwarenessImpact.regret_pct i)%Q.
Proof.
  intros ->%area_1_returned ->%incentive_shift_returned.
  cbn [Survey.Pct_Potential_Loss_of_Unaware AwarenessImpact.regret_pct].
  assert (Hnum : AwarenessImpact.unlikely_count (frame st)
                 = Survey.potential_loss_count (frame st)).
  { by rewrite unlikely_count_filter, potential_loss_count_filter. }
  assert (Hden : len (AwarenessImpact.unaware_grads (frame st))
                 ≤ len (Survey.unaware_grad (frame st))).
  { rewrite len_unaware_grad. unfold len, AwarenessImpact.unaware_grads, select.
    cbn [rows]. apply length_filter_implies. by intros r [? _]%andb_true_iff. }
  split; [done|]. split; [done|]. rewrite Hnum.
  apply pct_or_zero_larger_den; [|done].
  rewrite <- Hnum. unfold AwarenessImpact.unlikely_count.
  rewrite !count_label_series, <- length_filter_orb by apply two_unlikely_labels_disjoint.
  apply length_filter_le.
Qed.

Lemma survey_loss_pct_at_most_regret_pct_witness :
  ∃ (m : Survey.Metrics1) (i : AwarenessImpact.IncentiveMetrics),
    returned (Survey.area_1_enrollment_threat (process_with scenario_B_blank)) = Some m
    ∧ returned (AwarenessImpact.analyze_incentive_shift
                  (frame (process_with scenario_B_blank)) (process_with scenario_B_blank))
      = Some i
    ∧ (Survey.Pct_Potential_Loss_of_Unaware m <= AwarenessImpact.regret_pct i)%Q.
Proof.
  do 2 eexists. split; [vm_compute; reflexivity|]. split; [vm_compute; reflexivity|].
  refine (proj2 (proj2 (survey_loss_pct_at_most_regret_pct
                          (process_with scenario_B_blank) (process_with scenario_B_blank)
                          _ _ _ _))); vm_compute; reflexivity.
Defined.

(** X7.  Whatever the table, the three percentages that
    [area_1_enrollment_threat] returns lie between 0 and 100, and the share
    of all graduates at risk is at most the unaware share and at most the
    share of the unaware group at risk. *)
Theorem area_1_percentages_are_ordered (st : Proc) (m : Survey.Metrics1) :
  returned (Survey.area_1_enrollment_threat st) = Some m →
  ((0 <= Survey.Pct_Unaware m)%Q ∧ (Survey.Pct_Unaware m <= 100)%Q)
  ∧ ((0 <= Survey.Pct_Potential_Loss_of_Unaware m)%Q
     ∧ (Survey.Pct_Potential_Loss_of_Unaware m <= 100)%Q)
  ∧ ((0 <= Survey.Pct_Potential_Loss_Total m)%Q
     ∧ (Survey.Pct_Potential_Loss_Total m <= Survey.Pct_Unaware m)%Q
     ∧ (Survey.Pct_Potential_Loss_Total m <= Survey.Pct_Potential_Loss_of_Unaware m)%Q).
Proof.
  intros ->%area_1_returned.
  cbn [Survey.Pct_Unaware Survey.Pct_Potential_Loss_of_Unaware
       Survey.Pct_Potential_Loss_Total].
  assert (H1 : Survey.potential_loss_count (frame st) ≤ len (Survey.unaware_grad (frame st))).
  { unfold Survey.potential_loss_count, len, select. cbn [rows]. apply length_filter_le. }
  assert (H2 : len (Survey.unaware_grad (frame st)) ≤ len (Survey.grad_students (frame st))).
  { unfold len, Survey.unaware_grad, setitem, select. cbn [rows].
    rewrite length_map. apply length_filter_le. }
  repeat split; try apply pct_or_zero_nonneg.
  - by apply pct_or_zero_le_100.
  - by apply pct_or_zero_le_100.
  - by apply pct_or_zero_larger_num.
  - by apply pct_or_zero_larger_den.
Qed.

Lemma area_1_percentages_are_ordered_witness :
  ∃ m : Survey.Metrics1,
    returned (Survey.area_1_enrollment_threat (process_with scenario_B_bad)) = Some m
    ∧ (Survey.Pct_Potential_Loss_Total m <= Survey.Pct_Unaware m)%Q.
Proof.
  eexists. split; [vm_compute; reflexivity|].
  refine (proj1 (proj2 (proj2 (proj2
    (area_1_percentages_are_ordered (process_with scenario_B_bad) _ _))))).
  vm_compute. reflexivity.
Defined.

(** X8.  When [area_2_roi_pressure] returns, its ROI subset is not empty, the
    reluctant students are among its rows, and their percentage lies between
    0 and 100, reaching 100 exactly when every row of the subset is
    reluctant. *)
Theorem reluctant_share_is_a_percentage (st : Proc) (m : Survey.Metrics2) :
  returned (Survey.area_2_roi_pressure st) = Some m →
  0 < len (Survey.roi_df (coded (frame st)))
  ∧ Survey.Num_Reluctant_Students m ≤ len (Survey.roi_df (coded (frame st)))
  ∧ (0 <= Survey.Pct_Reluctant_Students m)%Q
  ∧ (Survey.Pct_Reluctant_Students m <= 100)%Q
  ∧ ((Survey.Pct_Reluctant_Students m == 100)%Q
     ↔ Survey.Num_Reluctant_Students m = len (Survey.roi_df (coded (frame st)))).
Proof.
  intros [Hne ->]%area_2_returned.
  cbn [Survey.Num_Reluctant_Students Survey.Pct_Reluctant_Students].
  assert (Hle : len (Survey.reluctant (coded (frame st)))
                ≤ len (Survey.roi_df (coded (frame st)))).
  { unfold Survey.reluctant, len, select at 1. cbn [rows]. apply length_filter_le. }
  split; [lia|]. split; [done|]. split; [apply pct_or_zero_nonneg|].
  split; [by apply pct_or_zero_le_100|].
  apply pct_or_zero_full. lia.
Qed.

Lemma reluctant_share_is_a_percentage_witness :
  ∃ m : Survey.Metrics2,
    returned (Survey.area_2_roi_pressure (process_with roi_answers)) = Some m
    ∧ (Survey.Pct_Reluctant_Students m <= 100)%Q.
Proof.
  eexists. split; [vm_compute; reflexivity|].
  refine (proj1 (proj2 (proj2 (proj2
    (reluctant_share_is_a_percentage (process_with roi_answers) _ _))))).
  vm_compute. reflexivity.
Defined.

(** X9.  The percentages that [analyze_awareness_gap] and
    [analyze_incentive_shift] return lie between 0 and 100, and the graduate
    unaware percentage is 100 exactly when there is an answer to Q31 among
    the graduates and every such answer is No. *)
Theorem impact_percentages_are_percentages (df : DataFrame) (st st' : Proc)
    (g : AwarenessImpact.GapMetrics) (i : AwarenessImpact.IncentiveMetrics) :
  returned (AwarenessImpact.analyze_awareness_gap df st) = Some g →
  returned (AwarenessImpact.analyze_incentive_shift df st') = Some i →
  ((0 <= AwarenessImpact.grad_unaware_pct g)%Q
   ∧ (AwarenessImpact.grad_unaware_pct g <= 100)%Q)
  ∧ ((0 <= AwarenessImpact.undergrad_unaware_pct g)%Q
     ∧ (AwarenessImpact.undergrad_unaware_pct g <= 100)%Q)
  ∧ ((0 <= AwarenessImpact.regret_pct i)%Q ∧ (AwarenessImpact.regret_pct i <= 100)%Q)
  ∧ ((AwarenessImpact.grad_unaware_pct g == 100)%Q
     ↔ 0 < len (AwarenessImpact.grad_df df)
       ∧ count_label (series (AwarenessImpact.grad_df df) "Q31") "No"
         = len (AwarenessImpact.grad_df df)).
Proof.
  intros ->%awareness_gap_returned ->%incentive_shift_returned.
  cbn [AwarenessImpact.grad_unaware_pct AwarenessImpact.undergrad_unaware_pct
       AwarenessImpact.regret_pct].
  assert (Hg : count_label (series (AwarenessImpact.grad_df df) "Q31") "No"
               ≤ len (AwarenessImpact.grad_df df)).
  { rewrite count_label_series. apply length_filter_le. }
  assert (Hu : count_label (series (AwarenessImpact.undergrad_df df) "Q53") "No"
               ≤ len (AwarenessImpact.undergrad_df df)).
  { rewrite count_label_series. apply length_filter_le. }
  assert (Hr : AwarenessImpact.unlikely_count df ≤ len (AwarenessImpact.unaware_grads df)).
  { unfold AwarenessImpact.unlikely_count.
    rewrite !count_label_series, <- length_filter_orb by apply two_unlikely_labels_disjoint.
    apply length_filter_le. }
  split; [split; [apply pct_or_zero_nonneg|by apply pct_or_zero_le_100]|].
  split; [split; [apply pct_or_zero_nonneg|by apply pct_or_zero_le_100]|].
  split; [split; [apply pct_or_zero_nonneg|by apply pct_or_zero_le_100]|].
  split.
  - intros Hfull. destruct (len (AwarenessImpact.grad_df df)) as [|n] eqn:Hn; [done|].
    split; [lia|]. apply pct_or_zero_full in Hfull; [done|lia].
  - intros [Hpos Heq]. by apply pct_or_zero_full.
Qed.

Lemma impact_percentages_are_percentages_witness :
  ∃ (g : AwarenessImpact.GapMetrics) (i : AwarenessImpact.IncentiveMetrics),
    returned (AwarenessImpact.analyze_awareness_gap blank_awareness
                (process_with blank_awareness)) = Some g
    ∧ returned (AwarenessImpact.analyze_incentive_shift blank_awareness
                  (process_with blank_awareness)) = Some i
    ∧ (AwarenessImpact.regret_pct i <= 100)%Q.
Proof.
  do 2 eexists. split; [vm_compute; reflexivity|]. split; [vm_compute; reflexivity|].
  refine (proj2 (proj1 (proj2 (proj2
    (impact_percentages_are_percentages blank_awareness (process_with blank_awareness)
       (process_with blank_awareness) _ _ _ _))))); vm_compute; reflexivity.
Defined.

(** ** What the analyses do to the caller's table, continued *)

Lemma has_column_setitem_same (df : DataFrame) (c : string) (f : Row → cell) :
  has_column (setitem c f df) c = true.
Proof.
  unfold setitem. destruct (has_column df c) eqn:Hc.
  - exact Hc.
  - unfold has_column. cbn [columns]. apply bool_decide_eq_true.
    apply elem_of_app. right. by apply list_elem_of_singleton.
Qed.

Lemma coded_idempotent (df : DataFrame) : coded (coded df) = coded df.
Proof.
  unfold coded at 1. unfold setitem at 1 2. cbn [columns rows].
  assert (Hraw : has_column (coded df) "ROI_Belief_Raw" = true).
  { unfold coded. apply has_column_setitem, has_column_setitem_same. }
  assert (Hscore : has_column (coded df) "ROI_Belief_Score" = true).
  { unfold coded. apply has_column_setitem_same. }
  rewrite Hraw.
  assert (Hscore' :
    has_column {| columns := columns (coded df);
                  rows := List.map (λ r, <["ROI_Belief_Raw" := Survey.ROI_Belief_Raw r]> r)
                            (rows (coded df)) |}
      "ROI_Belief_Score" = true) by exact Hscore.
  rewrite Hscore'. destruct (coded df) as [cs rs] eqn:Hc. f_equal.
  change (List.map ?f ?l) with (f <$> l). rewrite <- list_fmap_compose.
  assert (rs = rows (coded df)) as -> by by rewrite Hc.
  unfold coded, setitem. cbn [rows].
  change (List.map ?f ?l) with (f <$> l). rewrite <- !list_fmap_compose.
  apply list_fmap_ext. intros i r _. cbn.
  set (r1 := <["ROI_Belief_Raw" := Survey.ROI_Belief_Raw r]> r).
  set (r2 := <["ROI_Belief_Score" := Survey.ROI_Belief_Score r1]> r1).
  assert (Hraw2 : Survey.ROI_Belief_Raw r2 = Survey.ROI_Belief_Raw r).
  { unfold Survey.ROI_Belief_Raw, r2, r1. by rewrite !cell_of_insert_ne. }
  rewrite Hraw2.
  assert (Hs : Survey.ROI_Belief_Score (<["ROI_Belief_Raw" := Survey.ROI_Belief_Raw r]> r2)
               = Survey.ROI_Belief_Score r1).
  { unfold Survey.ROI_Belief_Score, r1. by rewrite !cell_of_insert_eq. }
  rewrite Hs. unfold r2.
  rewrite (insert_insert_ne _ "ROI_Belief_Raw" "ROI_Belief_Score") by done.
  rewrite insert_insert_eq. unfold r1. by rewrite insert_insert_eq.
Qed.

(** X10.  [area_2_roi_pressure] can be run again on the table it left: when
    a first call returns, a second call on the resulting table returns the
    same metrics and leaves the table as the first call left it. *)
Theorem area_2_twice_is_area_2_once (st st1 : Proc) (m : Survey.Metrics2) :
  Survey.area_2_roi_pressure st = (inr m, st1) →
  frame st1 = coded (frame st)
  ∧ ∃ st2, Survey.area_2_roi_pressure st1 = (inr m, st2) ∧ frame st2 = frame st1.
Proof.
  intros Hrun.
  assert (Hinv : has_column (frame st) "Q55" = true ∧ has_column (frame st) "Q44" = true
                 ∧ has_column (coded (frame st)) "Q49" = true
                 ∧ frame st1 = coded (frame st)).
  { unfold Survey.area_2_roi_pressure, require_columns, require_column, get_frame,
      set_frame, pct, write_artifact, raise, mbind, M_bind, mret, M_ret in Hrun.
    unfold coded. repeat (case_match; simplify_eq/=; try done). }
  destruct Hinv as (H55 & H44 & H49 & Hframe).
  assert (Hret : returned (Survey.area_2_roi_pressure st) = Some m).
  { unfold returned. by rewrite Hrun. }
  apply area_2_returned in Hret as [Hne ->].
  split; [done|].
  rewrite (area_2_run st1); rewrite Hframe.
  - rewrite coded_idempotent. rewrite bool_decide_eq_false_2 by done. eauto.
  - unfold coded. by do 2 apply has_column_setitem.
  - unfold coded. by do 2 apply has_column_setitem.
  - done.
Qed.

Lemma area_2_twice_is_area_2_once_witness :
  ∃ (m : Survey.Metrics2) (st1 st2 : Proc),
    Survey.area_2_roi_pressure (process_with roi_answers) = (inr m, st1)
    ∧ Survey.area_2_roi_pressure st1 = (inr m, st2)
    ∧ frame st2 = frame st1.
Proof.
  destruct (Survey.area_2_roi_pressure (process_with roi_answers)) as [[e|m] st1] eqn:Hrun.
  - exfalso. vm_compute in Hrun. discriminate Hrun.
  - destruct (area_2_twice_is_area_2_once _ _ _ Hrun) as (_ & st2 & Hagain & Hframe).
    exists m, st1, st2. split; [reflexivity|]. split; [exact Hagain|exact Hframe].
Defined.

#[local] Instance same_outside_refl (cs : list string) : Reflexive (same_outside cs).
Proof. by intros df. Qed.

#[local] Instance same_outside_trans (cs : list string) : Transitive (same_outside cs).
Proof.
  intros d1 d2 d3 [Hl1 H1] [Hl2 H2]. split; [congruence|].
  intros c Hc. by rewrite H2, H1.
Qed.

Lemma same_outside_weaken (cs cs' : list string) (df df' : DataFrame) :
  cs ⊆ cs' → same_outside cs df df' → same_outside cs' df df'.
Proof.
  intros Hsub [Hlen H]. split; [done|]. intros c Hc. apply H. intros Hin.
  apply Hc. by apply Hsub.
Qed.

Lemma same_outside_setitem (cs : list string) (c : string) (f : Row → cell)
    (df : DataFrame) :
  c ∈ cs → same_outside cs df (setitem c f df).
Proof.
  intros Hc. split.
  - unfold len, setitem. cbn [rows]. by rewrite length_map.
  - intros c' Hc'. unfold series, setitem. cbn [rows].
    change (List.map ?f ?l) with (f <$> l). rewrite <- list_fmap_compose.
    apply list_fmap_ext. intros i r _. cbn. apply cell_of_insert_ne.
    by intros ->.
Qed.

Lemma frame_keeps_bind {A B : Type} (R : DataFrame → DataFrame → Prop)
    `{!Transitive R} (m : M A) (f : A → M B) :
  frame_keeps R m → (∀ a, frame_keeps R (f a)) → frame_keeps R (m ≫= f).
Proof.
  intros Hm Hf st. specialize (Hm st). unfold mbind, M_bind.
  destruct (m st) as [[e|a] st1]; cbn [snd] in *; [done|].
  etrans; [exact Hm|apply Hf].
Qed.

Lemma frame_keeps_same {A : Type} (R : DataFrame → DataFrame → Prop) `{!Reflexive R}
    (m : M A) :
  (∀ st, frame (m st).2 = frame st) → frame_keeps R m.
Proof. intros H st. by rewrite H. Qed.

Lemma area_1_frame (st : Proc) :
  frame (Survey.area_1_enrollment_threat st).2 = frame st.
Proof.
  unfold Survey.area_1_enrollment_threat, require_column, get_frame, write_artifact,
    raise, mbind, M_bind, mret, M_ret.
  repeat case_match; simplify_eq/=; done.
Qed.

Lemma area_2_same_outside :
  frame_keeps (same_outside ["ROI_Belief_Raw"; "ROI_Belief_Score"])
    Survey.area_2_roi_pressure.
Proof.
  assert (Hraw : "ROI_Belief_Raw" ∈ ["ROI_Belief_Raw"; "ROI_Belief_Score"])
    by (apply (bool_decide_unpack _); vm_compute; exact I).
  assert (Hscore : "ROI_Belief_Score" ∈ ["ROI_Belief_Raw"; "ROI_Belief_Score"])
    by (apply (bool_decide_unpack _); vm_compute; exact I).
  intros st.
  unfold Survey.area_2_roi_pressure, require_columns, require_column, get_frame,
    set_frame, pct, write_artifact, raise, mbind, M_bind, mret, M_ret.
  repeat case_match; simplify_eq/=; try reflexivity.
  all: try (etrans; [|by apply same_outside_setitem]);
       by apply same_outside_setitem.
Qed.

Lemma coerce_columns_same_outside (parse_number : string → option Q)
    (cs all : list string) :
  cs ⊆ all → frame_keeps (same_outside all) (Survey.coerce_columns parse_number cs).
Proof.
  induction cs as [|c cs IH]; intros Hsub st; [done|].
  cbn [Survey.coerce_columns].
  unfold get_frame, require_column, set_frame, raise, mbind, M_bind, mret, M_ret.
  destruct (has_column (frame st) c); cbn [snd frame]; [|done].
  etrans.
  - apply (same_outside_setitem all c). apply Hsub. by left.
  - apply (IH (λ x Hx, Hsub x (list_elem_of_further _ _ _ Hx)) (mkProc _ _ _ _)).
Qed.

Lemma area_3_same_outside (parse_number : string → option Q) (argsort : list Q → list nat) :
  frame_keeps (same_outside derived_columns)
    (Survey.area_3_program_value parse_number argsort).
Proof.
  unfold Survey.area_3_program_value.
  apply frame_keeps_bind; [apply _| |].
  { apply coerce_columns_same_outside. unfold derived_columns.
    intros c Hc. apply elem_of_app. by right. }
  intros _ st.
  unfold get_frame, write_artifact, first_entry, last_entry, dict_get, raise,
    mbind, M_bind, mret, M_ret.
  repeat case_match; simplify_eq/=; reflexivity.
Qed.

(** X11.  Once [analyze_survey.py] has loaded its table, no step of the run,
    returning or raising, adds or removes a row or changes a cell outside
    the two derived ROI columns and the six ranking columns. *)
Theorem survey_never_changes_an_answer (parse_number : string → option Q)
    (argsort : list Q → list nat) (st st0 : Proc) (df0 : DataFrame)
    (question_map : gmap string string) :
  Survey.load_and_clean_data filepath st = (inr (df0, question_map), st0) →
  same_outside derived_columns df0 (frame (Survey.main parse_number argsort st).2).
Proof.
  intros Hload. unfold Survey.main. rewrite (bind_ok _ _ _ _ _ Hload).
  unfold set_frame at 1. unfold mbind at 1, M_bind at 1.
  set (st1 := mkProc (disk st0) df0 (written st0) (printed st0)).
  change df0 with (frame st1) at 1.
  assert (Hkeep : frame_keeps (same_outside derived_columns)
            (m1 ← Survey.area_1_enrollment_threat;
             m2 ← Survey.area_2_roi_pressure;
             m3 ← Survey.area_3_program_value parse_number argsort;
             Survey.export_summary m1 m2 m3)).
  { apply frame_keeps_bind; [apply _| |].
    { apply frame_keeps_same; [apply _|]. apply area_1_frame. }
    intros m1. apply frame_keeps_bind; [apply _| |].
    { intros s. eapply same_outside_weaken; [|apply area_2_same_outside].
      unfold derived_columns. intros c Hc. apply elem_of_app. by left. }
    intros m2. apply frame_keeps_bind; [apply _|apply area_3_same_outside|].
    intros m3. by apply frame_keeps_same; [apply _|]. }
  apply (Hkeep st1).
Qed.

Lemma survey_never_changes_an_answer_witness :
  ∃ df0 : DataFrame,
    fst <$> returned (Survey.load_and_clean_data filepath (process_on_disk export_complete))
      = Some df0
    ∧ same_outside derived_columns df0
        (frame (Survey.main parse_decimal argsort_stable
                  (process_on_disk export_complete)).2).
Proof.
  eexists. split; [vm_compute; reflexivity|].
  eapply (survey_never_changes_an_answer parse_decimal argsort_stable
            (process_on_disk export_complete)).
  vm_compute. reflexivity.
Defined.

Lemma require_columns_state (df : DataFrame) (cs : list string) (st : Proc) :
  (require_columns df cs st).2 = st.
Proof.
  induction cs as [|c cs IH]; [done|]. cbn [require_columns].
  unfold mbind, M_bind, require_column. destruct (has_column df c); cbn; [|done].
  exact IH.
Qed.

(** X12.  [analyze_irreplaceability.py] coerces and ranks a copy: whatever
    the export holds, the table it loaded is the table it ends with. *)
Theorem irreplaceability_leaves_its_table (parse_number : string → option Q)
    (argsort : list Q → list nat) (st st1 : Proc) (df : DataFrame) :
  Irreplaceability.loaded st = (inr df, st1) →
  frame (Irreplaceability.main parse_number argsort st).2 = df.
Proof.
  intros Hload. unfold Irreplaceability.main.
  rewrite (bind_ok _ _ _ _ _ Hload).
  unfold set_frame, Irreplaceability.subset, mbind, M_bind, mret, M_ret.
  pose proof (require_columns_state df Irreplaceability.relevant_columns
                (mkProc (disk st1) df (written st1) (printed st1))) as Hreq.
  destruct (require_columns df Irreplaceability.relevant_columns _) as [[e|[]] st2];
    cbn [snd] in *; subst st2; [done|].
  unfold first_entry, at_label, write_artifact, raise, mbind, M_bind, mret, M_ret.
  repeat (case_match; simplify_eq/=; try done).
Qed.

Lemma irreplaceability_leaves_its_table_witness :
  ∃ df : DataFrame,
    returned (Irreplaceability.loaded (process_on_disk export_complete)) = Some df
    ∧ frame (Irreplaceability.main parse_decimal argsort_stable
               (process_on_disk export_complete)).2 = df.
Proof.
  eexists. split; [vm_compute; reflexivity|].
  eapply (irreplaceability_leaves_its_table parse_decimal argsort_stable
            (process_on_disk export_complete)).
  vm_compute. reflexivity.
Defined.

(** ** Means and their ranking, continued *)

(** X13.  On a table that has the six ranking columns, and for any valid
    order that [argsort] returns, [area_3_program_value] returns, its top
    feature is the label of a column whose mean no other mean is below, and
    its bottom feature the label of a column that no other entry of the
    ranking follows: the largest mean, or a column without any number when
    there is one. *)
Theorem top_feature_has_the_least_mean (parse_number : string → option Q)
    (argsort : list Q → list nat) (st : Proc) :
  let means := mean_of_columns (coerced parse_number (frame st)) Survey.cols in
  Forall (λ c, has_column (frame st) c = true) Survey.cols →
  is_argsort ((non_nan means).*2) (argsort ((non_nan means).*2)) →
  ∃ (m : Survey.Metrics3) (top bottom : string),
    returned (Survey.area_3_program_value parse_number argsort st) = Some m
    ∧ (top, Survey.Top_Feature_Score m) ∈ means
    ∧ Survey.labels !! top = Some (Survey.Top_Feature m)
    ∧ (bottom, Survey.Bottom_Feature_Score m) ∈ means
    ∧ Survey.labels !! bottom = Some (Survey.Bottom_Feature m)
    ∧ ∀ (c : string) (v : option Q), (c, v) ∈ means →
        in_order (Survey.Top_Feature_Score m) v
        ∧ in_order v (Survey.Bottom_Feature_Score m).
Proof.
  intros means Hcols Hvalid.
  set (ranked := sort_values argsort means).
  assert (Hperm : ranked ≡ₚ means) by by apply sort_values_perm.
  assert (Hasc : ascending ranked) by by apply sort_values_ascending.
  assert (Hlen : length ranked = 6).
  { rewrite Hperm. unfold means, mean_of_columns. by rewrite length_fmap. }
  assert (Hcs : ∀ kv, kv ∈ ranked → kv.1 ∈ Survey.cols).
  { intros kv Hkv. rewrite Hperm in Hkv.
    apply list_elem_of_fmap in Hkv as (c & -> & Hc). done. }
  destruct ranked as [|t rest] eqn:Hr; [done|].
  destruct (last (t :: rest)) as [b|] eqn:Hlast; [|by apply last_None in Hlast].
  destruct (labels_cover_cols t.1) as [tl Htl]; [apply Hcs; left|].
  assert (Hb : b ∈ t :: rest).
  { apply list_elem_of_lookup. exists (length rest).
    by rewrite last_lookup in Hlast. }
  destruct (labels_cover_cols b.1) as [bl Hbl]; [by apply Hcs|].
  exists (Survey.mkMetrics3 tl t.2 bl b.2), t.1, b.1.
  split.
  { unfold returned, Survey.area_3_program_value.
    erewrite bind_ok by (by apply coerce_columns_ok).
    unfold get_frame, write_artifact, first_entry, last_entry, dict_get,
      mbind, M_bind, mret, M_ret. cbn [frame].
    fold (coerced parse_number (frame st)). fold means. fold ranked.
    rewrite Hr, Hlast, Htl, Hbl. reflexivity. }
  cbn [Survey.Top_Feature_Score Survey.Top_Feature Survey.Bottom_Feature_Score
       Survey.Bottom_Feature].
  split; [rewrite <- Hperm, <- surjective_pairing; left|]. split; [done|].
  split; [by rewrite <- Hperm, <- surjective_pairing|]. split; [done|].
  intros c v Hin. rewrite <- Hperm in Hin.
  apply list_elem_of_lookup in Hin as [i Hi]. split.
  - destruct i as [|i]; [cbn in Hi; simplify_eq; apply in_order_refl|].
    by apply (Hasc 0 (S i) t (c, v)); [lia| |].
  - pose proof (lookup_lt_Some _ _ _ Hi) as Hlt. cbn [length] in Hlt.
    rewrite last_lookup in Hlast. cbn [length pred] in Hlast.
    destruct (decide (i = length rest)) as [->|Hne].
    + rewrite Hi in Hlast. simplify_eq. apply in_order_refl.
    + by apply (Hasc i (length rest) (c, v) b); [lia| |].
Qed.

Lemma top_feature_has_the_least_mean_witness :
  Forall (λ c, has_column (frame (process_with rankings)) c = true) Survey.cols
  ∧ ∃ m : Survey.Metrics3,
      returned (Survey.area_3_program_value parse_decimal argsort_stable
                  (process_with rankings)) = Some m
      ∧ in_order (Survey.Top_Feature_Score m) (Survey.Bottom_Feature_Score m).
Proof.
  assert (Hcols : Forall (λ c, has_column (frame (process_with rankings)) c = true)
                    Survey.cols) by (repeat constructor).
  split; [exact Hcols|].
  destruct (top_feature_has_the_least_mean parse_decimal argsort_stable
              (process_with rankings) Hcols is_argsort_stable_rankings)
    as (m & top & bottom & Hret & _ & _ & Hbottom & _ & Hall).
  exists m. split; [exact Hret|]. exact (proj1 (Hall _ _ Hbottom)).
Defined.

Lemma to_numeric_unparsed (parse_number : string → option Q) (c : cell) :
  parsed parse_number c = None → to_numeric parse_number c = NaN.
Proof. destruct c as [|s|q]; cbn; [done| |done]. by intros ->. Qed.

(** X14.  A first row whose six ranking cells do not parse, as the metadata
    line that [analyze_irreplaceability.py] keeps in its table, changes
    nothing in the ranking: the sorted means are those of the table without
    that row. *)
Theorem unparsed_row_leaves_the_ranking (parse_number : string → option Q)
    (argsort : list Q → list nat) (columns : list string) (r0 : Row) (rs : list Row) :
  (∀ c, c ∈ Irreplaceability.relevant_columns → parsed parse_number (cell_of r0 c) = None) →
  Irreplaceability.sorted_ranks parse_number argsort (mkDF columns (r0 :: rs))
  = Irreplaceability.sorted_ranks parse_number argsort (mkDF columns rs).
Proof.
  intros Hrow. unfold Irreplaceability.sorted_ranks. do 2 f_equal.
  unfold mean_of_columns. apply list_fmap_ext. intros i c Hc.
  apply list_elem_of_lookup_2 in Hc. f_equal.
  unfold Irreplaceability.coerce. rewrite !(series_after_coercion _ _ _ _ Hc).
  unfold series. cbn [rows List.map fmap list_fmap].
  rewrite (to_numeric_unparsed _ _ (Hrow c Hc)). reflexivity.
Qed.

Lemma unparsed_row_leaves_the_ranking_witness :
  (∀ c, c ∈ Irreplaceability.relevant_columns →
        parsed parse_decimal (cell_of metadata_rankings c) = None)
  ∧ Irreplaceability.sorted_ranks parse_decimal argsort_stable
      (mkDF survey_columns (metadata_rankings :: rows rankings))
    = Irreplaceability.sorted_ranks parse_decimal argsort_stable
        (mkDF survey_columns (rows rankings)).
Proof.
  assert (H : ∀ c, c ∈ Irreplaceability.relevant_columns →
                   parsed parse_decimal (cell_of metadata_rankings c) = None).
  { intros c. unfold Irreplaceability.relevant_columns.
    rewrite !elem_of_cons, elem_of_nil.
    intros [->|[->|[->|[->|[->|[->|[]]]]]]]; vm_compute; reflexivity. }
  split; [exact H|].
  exact (unparsed_row_leaves_the_ranking parse_decimal argsort_stable survey_columns
           metadata_rankings (rows rankings) H).
Defined.

Lemma lt_float_Some (x y : Q) :
  Irreplaceability.lt_float (Some x) (Some y) = true ↔ (x < y)%Q.
Proof.
  unfold Irreplaceability.lt_float. rewrite negb_true_iff.
  destruct (Qle_bool y x) eqn:H.
  - apply Qle_bool_iff in H. split; [done|]. intros Hlt. lra.
  - split; [|done]. intros _. apply Qnot_le_lt. intros Hle.
    apply Qle_bool_iff in Hle. congruence.
Qed.

Lemma irreplaceability_main_returned (parse_number : string → option Q)
    (argsort : list Q → list nat) (st : Proc) (ins : Irreplaceability.Insights) :
  returned (Irreplaceability.main parse_number argsort st) = Some ins →
  Irreplaceability.comparison_insight ins
  = comparison_insight_of (Irreplaceability.technical_score ins)
      (Irreplaceability.networking_score ins) (Irreplaceability.recruiting_score ins).
Proof.
  intros H.
  unfold returned, Irreplaceability.main, mbind, M_bind, mret, M_ret in H.
  destruct (Irreplaceability.loaded st) as [[e|df] st1]; [done|].
  unfold set_frame, Irreplaceability.subset, mbind, M_bind, mret, M_ret in H.
  destruct (require_columns df Irreplaceability.relevant_columns _) as [[e|[]] st2];
    [done|].
  unfold first_entry, at_label, write_artifact, raise, mbind, M_bind, mret, M_ret in H.
  repeat (case_match; simplify_eq/=; try done).
Qed.

(** X16.  The insight that [analyze_irreplaceability.py] writes is decided by
    the three scores it reads.  With three numbers it is "first" exactly when
    the technical score is below both others and "last" exactly when it is
    above both.  With NaN scores the order of the arguments of [min] and
    [max] matters: a NaN technical or networking score always gives "in
    between", whereas a NaN recruiting score is ignored and the technical
    score is compared with the networking score alone. *)
Theorem comparison_insight_cases :
  (∀ parse_number argsort (st : Proc) (ins : Irreplaceability.Insights),
     returned (Irreplaceability.main parse_number argsort st) = Some ins →
     Irreplaceability.comparison_insight ins
     = comparison_insight_of (Irreplaceability.technical_score ins)
         (Irreplaceability.networking_score ins) (Irreplaceability.recruiting_score ins))
  ∧ (∀ t n r : Q,
       (comparison_insight_of (Some t) (Some n) (Some r) = Irreplaceability.TechnicalFirst
        ↔ (t < n)%Q ∧ (t < r)%Q)
       ∧ (comparison_insight_of (Some t) (Some n) (Some r) = Irreplaceability.TechnicalLast
          ↔ (n < t)%Q ∧ (r < t)%Q))
  ∧ (∀ n r : option Q,
       comparison_insight_of None n r = Irreplaceability.TechnicalBetween)
  ∧ (∀ t r : option Q,
       comparison_insight_of t None r = Irreplaceability.TechnicalBetween)
  ∧ (∀ t n : Q,
       (comparison_insight_of (Some t) (Some n) None = Irreplaceability.TechnicalFirst
        ↔ (t < n)%Q)
       ∧ (comparison_insight_of (Some t) (Some n) None = Irreplaceability.TechnicalLast
          ↔ (n < t)%Q)).
Proof.
  split; [exact irreplaceability_main_returned|].
  split; [|split; [|split]].
  - intros t n r. unfold comparison_insight_of, Irreplaceability.min_float,
      Irreplaceability.max_float.
    destruct (Irreplaceability.lt_float (Some r) (Some n)) eqn:Hrn;
    destruct (Irreplaceability.lt_float (Some n) (Some r)) eqn:Hnr.
    all: try (apply lt_float_Some in Hrn); try (apply lt_float_Some in Hnr).
    all: try (apply not_true_iff_false in Hrn; rewrite lt_float_Some in Hrn).
    all: try (apply not_true_iff_false in Hnr; rewrite lt_float_Some in Hnr).
    all: repeat match goal with
         | |- context [Irreplaceability.lt_float (Some ?a) (Some ?b)] =>
             let H := fresh "H" in
             destruct (Irreplaceability.lt_float (Some a) (Some b)) eqn:H;
             [apply lt_float_Some in H
             |apply not_true_iff_false in H; rewrite lt_float_Some in H]
         end.
    all: split; split; try done; try lra; intros [? ?]; try lra.
  - intros n r. unfold comparison_insight_of, Irreplaceability.lt_float.
    by destruct (Irreplaceability.max_float n r).
  - intros t r. unfold comparison_insight_of, Irreplaceability.min_float,
      Irreplaceability.max_float, Irreplaceability.lt_float.
    destruct r, t; done.
  - intros t n. unfold comparison_insight_of.
    change (Irreplaceability.min_float (Some n) None) with (Some n).
    change (Irreplaceability.max_float (Some n) None) with (Some n).
    destruct (Irreplaceability.lt_float (Some t) (Some n)) eqn:Htn;
    destruct (Irreplaceability.lt_float (Some n) (Some t)) eqn:Hnt.
    all: try (apply lt_float_Some in Htn); try (apply lt_float_Some in Hnt).
    all: try (apply not_true_iff_false in Htn; rewrite lt_float_Some in Htn).
    all: try (apply not_true_iff_false in Hnt; rewrite lt_float_Some in Hnt).
    all: split; split; try done; try lra.
Qed.

(** ** Artifacts *)

Ltac pick_k :=
  first [ exists 1; split; [cbn; lia|]; split; [reflexivity|done]
        | exists 0; split; [cbn; lia|]; split; [by rewrite app_nil_r|done] ].

Lemma artifacts_extend_bind {A B : Type} (n1 n2 : list string) (m : M A) (f : A → M B) :
  artifacts_extend n1 m → (∀ a, artifacts_extend n2 (f a)) →
  artifacts_extend (n1 ++ n2) (m ≫= f).
Proof.
  intros Hm Hf st. destruct (Hm st) as (k1 & Hk1 & Hw1 & Hok1).
  unfold mbind, M_bind. destruct (m st) as [[e|a] st1] eqn:Hrun; cbn [fst snd] in *.
  - exists k1. rewrite length_app. split; [lia|]. split; [|done].
    by rewrite take_app_le.
  - specialize (Hok1 a eq_refl). subst k1. rewrite firstn_all in Hw1.
    destruct (Hf a st1) as (k2 & Hk2 & Hw2 & Hok2).
    exists (length n1 + k2). rewrite length_app. split; [lia|]. split.
    + rewrite Hw2, Hw1, take_app_add. by rewrite <- app_assoc.
    + intros b Hb. by rewrite (Hok2 b Hb).
Qed.

Lemma artifacts_extend_silent {A : Type} (m : M A) :
  (∀ st, written (m st).2 = written st) → artifacts_extend [] m.
Proof. intros H st. exists 0. rewrite H, app_nil_r. split; [cbn; lia|done]. Qed.

Lemma artifacts_extend_write (name : string) :
  artifacts_extend [name] (write_artifact name).
Proof. intros st. exists 1. split; [cbn; lia|done]. Qed.

Lemma coerce_columns_written (parse_number : string → option Q) (cs : list string)
    (st : Proc) :
  written (Survey.coerce_columns parse_number cs st).2 = written st.
Proof.
  revert st. induction cs as [|c cs IH]; intros st; [done|].
  cbn [Survey.coerce_columns].
  unfold get_frame, require_column, set_frame, raise, mbind, M_bind, mret, M_ret.
  destruct (has_column (frame st) c); cbn; [|done]. by rewrite IH.
Qed.

Lemma area_1_artifacts :
  artifacts_extend ["enrollment_threat.png"] Survey.area_1_enrollment_threat.
Proof.
  intros st.
  unfold Survey.area_1_enrollment_threat, require_column, get_frame, write_artifact,
    raise, mbind, M_bind, mret, M_ret.
  repeat case_match; simplify_eq/=; pick_k.
Qed.

Lemma area_2_artifacts :
  artifacts_extend ["roi_vs_pressure.png"] Survey.area_2_roi_pressure.
Proof.
  intros st.
  unfold Survey.area_2_roi_pressure, require_columns, require_column, get_frame,
    set_frame, pct, write_artifact, raise, mbind, M_bind, mret, M_ret.
  repeat case_match; simplify_eq/=; pick_k.
Qed.

Lemma area_3_artifacts (parse_number : string → option Q) (argsort : list Q → list nat) :
  artifacts_extend ["program_value.png"]
    (Survey.area_3_program_value parse_number argsort).
Proof.
  unfold Survey.area_3_program_value.
  apply (artifacts_extend_bind [] ["program_value.png"]).
  { apply artifacts_extend_silent, coerce_columns_written. }
  intros _. apply (artifacts_extend_bind [] ["program_value.png"]).
  { by apply artifacts_extend_silent. }
  intros df. apply (artifacts_extend_bind ["program_value.png"] []).
  { apply artifacts_extend_write. }
  intros _. apply artifacts_extend_silent. intros st.
  unfold first_entry, last_entry, dict_get, raise, mbind, M_bind, mret, M_ret.
  repeat case_match; simplify_eq/=; done.
Qed.

Lemma survey_load_written (path : string) (st : Proc) :
  written (Survey.load_and_clean_data path st).2 = written st.
Proof.
  unfold Survey.load_and_clean_data, read_csv_two_headers, open_csv, iloc_0_0,
    raise, mbind, M_bind, mret, M_ret.
  repeat case_match; simplify_eq/=; done.
Qed.

Lemma impact_load_written (path : string) (st : Proc) :
  written (AwarenessImpact.load_and_clean_data path st).2 = written st.
Proof.
  unfold AwarenessImpact.load_and_clean_data, read_csv_two_headers, open_csv, iloc_0_0,
    raise, mbind, M_bind, mret, M_ret.
  repeat case_match; simplify_eq/=; done.
Qed.

Lemma awareness_gap_artifacts (df : DataFrame) :
  artifacts_extend ["awareness_gap.png"] (AwarenessImpact.analyze_awareness_gap df).
Proof.
  intros st.
  unfold AwarenessImpact.analyze_awareness_gap, require_columns, require_column,
    write_artifact, raise, mbind, M_bind, mret, M_ret.
  repeat case_match; simplify_eq/=; pick_k.
Qed.

Lemma incentive_shift_artifacts (df : DataFrame) :
  artifacts_extend ["incentive_shift_pie.png"] (AwarenessImpact.analyze_incentive_shift df).
Proof.
  intros st.
  unfold AwarenessImpact.analyze_incentive_shift, require_columns, require_column,
    write_artifact, raise, mbind, M_bind, mret, M_ret.
  repeat case_match; simplify_eq/=; pick_k.
Qed.

Lemma irreplaceability_loaded_written (st : Proc) :
  written (Irreplaceability.loaded st).2 = written st.
Proof.
  unfold Irreplaceability.loaded, Irreplaceability.load, try_except_FileNotFound,
    Irreplaceability.drop_0, read_csv, open_csv, print, raise, mbind, M_bind, mret, M_ret.
  repeat case_match; simplify_eq/=; done.
Qed.

Lemma irreplaceability_subset_written (df : DataFrame) (st : Proc) :
  written (Irreplaceability.subset df st).2 = written st.
Proof.
  unfold Irreplaceability.subset, mbind, M_bind, mret, M_ret.
  pose proof (require_columns_state df Irreplaceability.relevant_columns st) as H.
  destruct (require_columns df Irreplaceability.relevant_columns st) as [[e|[]] st'];
    cbn [snd] in *; by subst.
Qed.

(** X17.  Whatever the file system holds, each script writes its artifacts
    in one fixed order and stops at the first failure: what a run adds to
    the files written is a prefix of the script's list of artifacts, and the
    whole list when the run returns. *)
Theorem artifacts_are_written_in_order (parse_number : string → option Q)
    (argsort : list Q → list nat) :
  artifacts_extend ["enrollment_threat.png"; "roi_vs_pressure.png"; "program_value.png";
                    "cpa_pathway_summary.csv"] (Survey.main parse_number argsort)
  ∧ artifacts_extend ["awareness_gap.png"; "incentive_shift_pie.png";
                      "awareness_impact_summary.txt"] AwarenessImpact.main
  ∧ artifacts_extend ["insights.txt"; "program_irreplaceability.png"]
      (Irreplaceability.main parse_number argsort).
Proof.
  split; [|split].
  - unfold Survey.main.
    apply (artifacts_extend_bind [] [_; _; _; _]).
    { apply artifacts_extend_silent, survey_load_written. }
    intros [df qm]. apply (artifacts_extend_bind [] [_; _; _; _]).
    { by apply artifacts_extend_silent. }
    intros _. apply (artifacts_extend_bind [_] [_; _; _]); [apply area_1_artifacts|].
    intros m1. apply (artifacts_extend_bind [_] [_; _]); [apply area_2_artifacts|].
    intros m2. apply (artifacts_extend_bind [_] [_]); [apply area_3_artifacts|].
    intros m3. apply artifacts_extend_write.
  - unfold AwarenessImpact.main.
    apply (artifacts_extend_bind [] [_; _; _]).
    { apply artifacts_extend_silent, impact_load_written. }
    intros df. apply (artifacts_extend_bind [] [_; _; _]).
    { by apply artifacts_extend_silent. }
    intros _. apply (artifacts_extend_bind [_] [_; _]); [apply awareness_gap_artifacts|].
    intros g. apply (artifacts_extend_bind [_] [_]); [apply incentive_shift_artifacts|].
    intros i. apply artifacts_extend_write.
  - unfold Irreplaceability.main.
    apply (artifacts_extend_bind [] [_; _]).
    { apply artifacts_extend_silent, irreplaceability_loaded_written. }
    intros df. apply (artifacts_extend_bind [] [_; _]).
    { by apply artifacts_extend_silent. }
    intros _. apply (artifacts_extend_bind [] [_; _]).
    { apply artifacts_extend_silent, irreplaceability_subset_written. }
    intros df_subset. apply (artifacts_extend_bind [] [_; _]).
    { apply artifacts_extend_silent. intros st. unfold first_entry, raise, mret, M_ret.
      by case_match. }
    intros top. do 3 (apply (artifacts_extend_bind [] [_; _]);
      [apply artifacts_extend_silent; intros st; unfold at_label, raise, mret, M_ret;
       by case_match|intros ?]).
    apply (artifacts_extend_bind [_] [_]); [apply artifacts_extend_write|].
    intros _. apply (artifacts_extend_bind [_] []); [apply artifacts_extend_write|].
    intros _. by apply artifacts_extend_silent.
Qed.

(** ** Missing columns *)

Lemma has_column_setitem_ne (df : DataFrame) (c c' : string) (f : Row → cell) :
  c ≠ c' → has_column (setitem c f df) c' = has_column df c'.
Proof.
  intros Hne. unfold setitem. destruct (has_column df c); [done|].
  unfold has_column. cbn [columns]. apply bool_decide_ext.
  rewrite elem_of_app, list_elem_of_singleton. naive_solver.
Qed.

(** X18.  [area_2_roi_pressure] assigns its two derived columns before it
    reads Q49: on a table that has Q55 and Q44 but no Q49 it raises KeyError
    for Q49, and the caller's table carries both new columns all the same. *)
Theorem area_2_fails_after_adding_its_columns (st : Proc) :
  has_column (frame st) "Q55" = true → has_column (frame st) "Q44" = true →
  has_column (frame st) "Q49" = false →
  Survey.area_2_roi_pressure st
  = (inl (KeyError "Q49"),
     mkProc (disk st) (coded (frame st)) (written st) (printed st))
  ∧ has_column (coded (frame st)) "ROI_Belief_Raw" = true
  ∧ has_column (coded (frame st)) "ROI_Belief_Score" = true.
Proof.
  intros H55 H44 H49.
  assert (H49' : has_column (coded (frame st)) "Q49" = false).
  { unfold coded. by rewrite !has_column_setitem_ne. }
  split; [|split].
  - unfold Survey.area_2_roi_pressure, require_columns, require_column, get_frame,
      set_frame, raise, mbind, M_bind, mret, M_ret.
    cbn [frame]. rewrite H55, H44. cbn [frame disk written printed].
    fold (coded (frame st)). by rewrite H49'.
  - unfold coded. apply has_column_setitem, has_column_setitem_same.
  - unfold coded. apply has_column_setitem_same.
Qed.

Lemma area_2_fails_after_adding_its_columns_witness :
  has_column (frame (process_with (mkDF ["Q55"; "Q44"] [answers [("Q55", "Probably yes")]])))
    "Q49" = false
  ∧ (Survey.area_2_roi_pressure
       (process_with (mkDF ["Q55"; "Q44"] [answers [("Q55", "Probably yes")]]))).1
    = inl (KeyError "Q49").
Proof.
  assert (H49 : has_column (frame (process_with
                  (mkDF ["Q55"; "Q44"] [answers [("Q55", "Probably yes")]]))) "Q49" = false)
    by reflexivity.
  split; [exact H49|].
  exact (f_equal fst (proj1 (area_2_fails_after_adding_its_columns
           (process_with (mkDF ["Q55"; "Q44"] [answers [("Q55", "Probably yes")]]))
           eq_refl eq_refl H49))).
Defined.

(** X19.  When the loaded table has no column Q27, [analyze_survey.py] and
    [analyze_awareness_impact.py] both end on KeyError for Q27 in their
    first analysis, with no artifact written. *)
Theorem missing_Q27_ends_both_scripts (parse_number : string → option Q)
    (argsort : list Q → list nat) (st st0 : Proc) (df0 : DataFrame)
    (question_map : gmap string string) :
  Survey.load_and_clean_data filepath st = (inr (df0, question_map), st0) →
  has_column df0 "Q27" = false →
  (let out := run_script (Survey.main parse_number argsort) st in
   exit_code out = 1%Z ∧ traceback out = Some (KeyError "Q27")
   ∧ written (final out) = written st ∧ frame (final out) = df0)
  ∧ (let out := run_script AwarenessImpact.main st in
     exit_code out = 1%Z ∧ traceback out = Some (KeyError "Q27")
     ∧ written (final out) = written st).
Proof.
  intros Hload Hno.
  assert (Hst0 : st0 = st).
  { unfold Survey.load_and_clean_data, read_csv_two_headers, open_csv, iloc_0_0,
      raise, mbind, M_bind, mret, M_ret in Hload.
    repeat (case_match; simplify_eq/=; try done). }
  subst st0.
  assert (Hload' : AwarenessImpact.load_and_clean_data filepath st = (inr df0, st)).
  { rewrite impact_load_of_survey_load. by rewrite Hload. }
  split.
  - unfold run_script, Survey.main. rewrite (bind_ok _ _ _ _ _ Hload).
    unfold set_frame, Survey.area_1_enrollment_threat, get_frame, require_column, raise,
      mbind, M_bind, mret, M_ret. cbn [frame]. rewrite Hno. done.
  - unfold run_script, AwarenessImpact.main. rewrite (bind_ok _ _ _ _ _ Hload').
    unfold set_frame, AwarenessImpact.analyze_awareness_gap, require_columns,
      require_column, raise, mbind, M_bind, mret, M_ret. rewrite Hno. done.
Qed.

Lemma missing_Q27_ends_both_scripts_witness :
  ∃ df0 : DataFrame,
    fst <$> returned (Survey.load_and_clean_data filepath
                        (process_on_disk [["StartDate"]; ["Start Date"]; ["2025-12-01"]]))
      = Some df0
    ∧ has_column df0 "Q27" = false
    ∧ traceback (run_script (Survey.main parse_decimal argsort_stable)
                   (process_on_disk [["StartDate"]; ["Start Date"]; ["2025-12-01"]]))
      = Some (KeyError "Q27").
Proof.
  eexists. split; [vm_compute; reflexivity|]. split; [reflexivity|].
  refine (proj1 (proj2 (proj1 (missing_Q27_ends_both_scripts parse_decimal argsort_stable
            (process_on_disk [["StartDate"]; ["Start Date"]; ["2025-12-01"]])
            _ _ _ _ _)))).
  - vm_compute. reflexivity.
  - reflexivity.
Defined.

(** ** The ranking of analyze_irreplaceability.py *)

Lemma require_columns_ok (df : DataFrame) (cs : list string) (st : Proc) :
  Forall (λ c, has_column df c = true) cs → require_columns df cs st = (inr (), st).
Proof.
  induction 1 as [|c cs Hc _ IH]; [done|]. cbn [require_columns].
  unfold mbind, M_bind, require_column. rewrite Hc. exact IH.
Qed.

Lemma at_label_found (s : FloatSeries) (label : string) (v : option Q) (st : Proc) :
  (label, v) ∈ s →
  ∃ v', at_label s label st = (inr v', st) ∧ (label, v') ∈ s.
Proof.
  intros Hin. unfold at_label.
  destruct (List.find (λ kv, bool_decide (kv.1 = label)) s) as [kv|] eqn:Hfind.
  - apply find_some in Hfind as [Hkv Heq]. apply bool_decide_eq_true in Heq.
    exists kv.2. split; [done|]. rewrite <- Heq, <- surjective_pairing.
    by apply list_elem_of_In.
  - apply list_elem_of_In in Hin.
    pose proof (find_none _ _ Hfind _ Hin) as Hno. cbn in Hno.
    by rewrite bool_decide_eq_true_2 in Hno.
Qed.

(** X20.  When [analyze_irreplaceability.py] has loaded a table with the six
    ranking columns, for any valid order that [argsort] returns the script
    runs to its end, the feature it names most essential carries a mean that
    no other mean is below, and the three scores it compares are the means
    under the labels Technical Skills, Networking (Peers/Alumni) and
    Recruiting/Internships. *)
Theorem most_essential_has_the_least_mean (parse_number : string → option Q)
    (argsort : list Q → list nat) (st st1 : Proc) (df : DataFrame) :
  let df_subset :=
    mkDF Irreplaceability.relevant_columns
      (List.map (λ r : Row, filter (λ kv, kv.1 ∈ Irreplaceability.relevant_columns) r)
         (rows df)) in
  let means :=
    rename Irreplaceability.columns_mapping
      (mean_of_columns (Irreplaceability.coerce parse_number df_subset)
         Irreplaceability.relevant_columns) in
  Irreplaceability.loaded st = (inr df, st1) →
  Forall (λ c, has_column df c = true) Irreplaceability.relevant_columns →
  is_argsort ((non_nan means).*2) (argsort ((non_nan means).*2)) →
  ∃ (ins : Irreplaceability.Insights) (v : option Q),
    returned (Irreplaceability.main parse_number argsort st) = Some ins
    ∧ (Irreplaceability.most_essential ins, v) ∈ means
    ∧ (∀ (c : string) (v' : option Q), (c, v') ∈ means → in_order v v')
    ∧ ("Technical Skills", Irreplaceability.technical_score ins) ∈ means
    ∧ ("Networking (Peers/Alumni)", Irreplaceability.networking_score ins) ∈ means
    ∧ ("Recruiting/Internships", Irreplaceability.recruiting_score ins) ∈ means.
Proof.
  intros df_subset means Hload Hcols Hvalid.
  set (ranks := Irreplaceability.sorted_ranks parse_number argsort df_subset).
  assert (Hperm : ranks ≡ₚ means) by by apply sort_values_perm.
  assert (Hasc : ascending ranks) by by apply sort_values_ascending.
  assert (Hlabel : ∀ c, c ∈ Irreplaceability.relevant_columns →
            ∃ v, (default c (Irreplaceability.columns_mapping !! c), v) ∈ ranks).
  { intros c Hc. eexists. rewrite Hperm. unfold means, rename, mean_of_columns.
    rewrite <- list_fmap_compose. apply list_elem_of_fmap. exists c. split; [|done].
    reflexivity. }
  destruct (Hlabel "Q24_4") as [vt Ht];
    [apply (bool_decide_unpack _); vm_compute; exact I|].
  destruct (Hlabel "Q24_2") as [vn Hn];
    [apply (bool_decide_unpack _); vm_compute; exact I|].
  destruct (Hlabel "Q24_6") as [vr Hr];
    [apply (bool_decide_unpack _); vm_compute; exact I|].
  change (default "Q24_4" (Irreplaceability.columns_mapping !! "Q24_4"))
    with "Technical Skills" in Ht.
  change (default "Q24_2" (Irreplaceability.columns_mapping !! "Q24_2"))
    with "Networking (Peers/Alumni)" in Hn.
  change (default "Q24_6" (Irreplaceability.columns_mapping !! "Q24_6"))
    with "Recruiting/Internships" in Hr.
  destruct ranks as [|top rest] eqn:Hranks; [by apply elem_of_nil in Ht|].
  set (st2 := mkProc (disk st1) df (written st1) (printed st1)).
  destruct (at_label_found _ _ _ st2 Ht) as (t & Hat_t & Hin_t).
  destruct (at_label_found _ _ _ st2 Hn) as (n & Hat_n & Hin_n).
  destruct (at_label_found _ _ _ st2 Hr) as (r & Hat_r & Hin_r).
  eexists _, top.2. split.
  { unfold returned, Irreplaceability.main. rewrite (bind_ok _ _ _ _ _ Hload).
    unfold set_frame at 1. unfold mbind at 1, M_bind at 1. fold st2.
    unfold Irreplaceability.subset.
    unfold mbind at 1, M_bind at 1. unfold mbind at 1, M_bind at 1.
    rewrite (require_columns_ok _ _ _ Hcols).
    unfold mret at 1, M_ret at 1. fold df_subset. cbv zeta.
    fold ranks. rewrite Hranks.
    unfold first_entry. unfold mbind at 1, M_bind at 1. unfold mret at 1, M_ret at 1.
    rewrite (bind_ok _ _ _ _ _ Hat_t), (bind_ok _ _ _ _ _ Hat_n),
      (bind_ok _ _ _ _ _ Hat_r).
    reflexivity. }
  cbn [Irreplaceability.most_essential Irreplaceability.technical_score
       Irreplaceability.networking_score Irreplaceability.recruiting_score].
  split; [rewrite <- Hperm, <- surjective_pairing; left|].
  split.
  { intros c v' Hin. rewrite <- Hperm in Hin.
    apply list_elem_of_lookup in Hin as [i Hi].
    destruct i as [|i]; [cbn in Hi; simplify_eq; apply in_order_refl|].
    by apply (Hasc 0 (S i) top (c, v')); [lia| |]. }
  by rewrite <- !Hperm.
Qed.

Lemma most_essential_has_the_least_mean_witness :
  ∃ ins : Irreplaceability.Insights,
    returned (Irreplaceability.main parse_decimal argsort_stable
                (process_on_disk export_complete)) = Some ins.
Proof.
  destruct (Irreplaceability.loaded (process_on_disk export_complete))
    as [[e|df] st1] eqn:Hload.
  { exfalso. vm_compute in Hload. discriminate Hload. }
  pose proof Hload as Hvalue. vm_compute in Hvalue.
  injection Hvalue as Hdf Hst1. subst df st1.
  destruct (most_essential_has_the_least_mean parse_decimal argsort_stable _ _ _ Hload)
    as (ins & v & Hret & _).
  - repeat constructor.
  - split.
    + apply (bool_decide_unpack _). vm_compute. exact I.
    + match goal with
      | |- Sorted Qle ?l => let l' := eval vm_compute in l in change l with l'
      end.
      repeat constructor; unfold Qle; cbn; lia.
  - exists ins. exact Hret.
Defined.
